(** * FinXchange: offline queue, service worker and webhook reconciliation

    A shallow embedding of the state-handling code of the FinXchange
    web application:

    - [ServiceWorker]  the fetch handlers of the service worker
                       ([handleAPIGet], [handleAPIRequest]);
    - [OfflineStorage] the IndexedDB-backed store of
                       [client/src/lib/offline-storage.ts];
    - [OfflineQueue]   the React hook of
                       [client/src/hooks/use-offline-queue.tsx];
    - [Server]         the storage layer and the Squad webhook route of the
                       Express back end.

    Promises are modelled by their settlement ([Ok] for a resolved promise,
    [Err] for a rejected one), browser and database state by explicit
    state passing, and the environment (the network, the clock, the random
    generator) by explicit arguments. *)

From Stdlib Require Import List String Ascii ZArith Lia Bool Permutation.
From stdpp Require Import gmap strings pretty.
Import ListNotations.

Local Open Scope string_scope.
Local Open Scope Z_scope.
Local Set Warnings "-register-all".

(** ** JavaScript values and helpers shared by all modules *)

(** JSON values, as carried by request bodies, [recipientDetails] and
    [metadata]. *)
Inductive json : Type :=
| JNull
| JBool (b : bool)
| JNum (n : Z)
| JStr (s : string)
| JArr (items : list json)
| JObj (fields : list (string * json)).

(** The settlement of a promise. *)
Inductive result (A : Type) : Type :=
| Ok (a : A)
| Err (message : string).
Arguments Ok {A} a.
Arguments Err {A} message.

(** [pathname.startsWith(endpoint)] *)
Definition startsWith (pathname endpoint : string) : bool :=
  String.prefix endpoint pathname.

(** [Date.now().toString()] and the interpolation of a number in a template
    literal: the decimal representation of an integer. *)
Definition toString (n : Z) : string := pretty n.

(** [xs.sort((a, b) => b.timestamp - a.timestamp)]: a stable sort by
    decreasing key.  [insert_desc] puts a record before the first record
    whose key is not strictly greater, so records with equal keys keep their
    relative order. *)
Section StableSort.
Context {A : Type} (key : A -> Z).

Fixpoint insert_desc (x : A) (l : list A) : list A :=
  match l with
  | [] => [x]
  | y :: l' => if key x <? key y then y :: insert_desc x l' else x :: l
  end.

Definition sort_desc (l : list A) : list A :=
  fold_right insert_desc [] l.

(** Newest first: keys never increase along the list. *)
Inductive desc_sorted : list A -> Prop :=
| desc_nil : desc_sorted []
| desc_cons x l :
    Forall (fun y => key y <= key x) l -> desc_sorted l -> desc_sorted (x :: l).
End StableSort.

(** ** An IndexedDB object store with [keyPath: 'id']

    The records of an object store are held in ascending key order, one
    record per key. *)
Section ObjectStore.
Context {V : Type} (keyOf : V -> string).

(** [store.get(key)] *)
Definition os_get (k : string) (st : list V) : option V :=
  find (fun v => String.eqb (keyOf v) k) st.

Fixpoint os_insert (v : V) (st : list V) : list V :=
  match st with
  | [] => [v]
  | x :: st' =>
      if String.ltb (keyOf v) (keyOf x) then v :: st else x :: os_insert v st'
  end.

(** [store.add(value)]: the request fails (a [ConstraintError]) when a
    record with the same key exists, and the store is left as it was. *)
Definition os_add (v : V) (st : list V) : option (list V) :=
  match os_get (keyOf v) st with
  | Some _ => None
  | None => Some (os_insert v st)
  end.

(** [store.delete(key)]: succeeds whether or not the key is present. *)
Definition os_delete (k : string) (st : list V) : list V :=
  List.filter (fun v => negb (String.eqb (keyOf v) k)) st.

Definition os_keys (st : list V) : list string := map keyOf st.
End ObjectStore.

Section ObjectStorePut.
Context {V : Type} (keyOf : V -> string).

(** [store.put(value)]: the value takes the place of the record that has
    its key, if there is one. *)
Definition os_put (v : V) (st : list V) : list V :=
  os_insert keyOf v (os_delete keyOf (keyOf v) st).
End ObjectStorePut.

(** ** The service worker *)

Module ServiceWorker.

Definition CACHEABLE_API_ENDPOINTS : list string :=
  [ "/api/auth/me"; "/api/wallet"; "/api/virtual-account"; "/api/banks";
    "/api/beneficiaries"; "/api/transactions" ].

Definition NON_CACHEABLE_ENDPOINTS : list string :=
  [ "/api/auth/login"; "/api/auth/logout"; "/api/auth/register";
    "/api/auth/verify-otp"; "/api/transfer/"; "/api/webhooks/" ].

(** A [Request]: [reqBody] is what [request.clone().json()] yields, [None]
    when the body is not JSON (the promise rejects). *)
Record Request := {
  url : string;
  pathname : string;
  method : string;
  reqBody : option json;
}.

(** A [Response]; header names are kept in lower case. *)
Record Response := {
  status : Z;
  headers : gmap string string;
  body : json;
}.

Definition ok (r : Response) : bool := (200 <=? status r) && (status r <=? 299).

Definition jsonHeaders : gmap string string :=
  {[ "content-type" := "application/json" ]}.

(** The record handed to [storeOfflineTransaction], and the record it
    stores (the same fields and a generated [id]). *)
Record QueuedRequest := {
  q_id : string;
  q_endpoint : string;
  q_method : string;
  q_body : json;
  q_timestamp : Z;
}.

(** The state the worker acts on: the [API_CACHE] cache, keyed by request
    URL; the [offlineQueue] object store of the IndexedDB database, [None]
    when the database cannot be opened or has no such store; and the log of
    the requests passed to [fetch], most recent first. *)
Record World := {
  apiCache : gmap string Response;
  offlineQueue : option (list QueuedRequest);
  fetched : list string;
}.

Definition logFetch (u : string) (w : World) : World :=
  {| apiCache := apiCache w; offlineQueue := offlineQueue w;
     fetched := u :: fetched w |}.

Definition cachePut (u : string) (r : Response) (w : World) : World :=
  {| apiCache := <[u := r]> (apiCache w); offlineQueue := offlineQueue w;
     fetched := fetched w |}.

(** Which handler the [fetch] listener answers with. *)
Inductive Route := ToAPIRequest | ToAPIGet | ToStatic | NotHandled.

Definition fetchListener (request : Request) : Route :=
  if negb (String.eqb (method request) "GET") then
    if startsWith (pathname request) "/api/" then ToAPIRequest else NotHandled
  else if startsWith (pathname request) "/api/" then ToAPIGet
  else ToStatic.

Definition networkUnavailable : Response :=
  {| status := 503; headers := jsonHeaders;
     body := JObj [ ("error", JStr "Network unavailable");
                    ("message", JStr "This request requires an internet connection.") ] |}.

Definition offlineNotCached : Response :=
  {| status := 503; headers := jsonHeaders;
     body := JObj [ ("error", JStr "Offline");
                    ("message", JStr "You are offline and this data is not cached.") ] |}.

Definition queuedResponse : Response :=
  {| status := 202; headers := jsonHeaders;
     body := JObj [ ("success", JBool true);
                    ("message", JStr "Transaction queued for processing when back online.");
                    ("offline", JBool true) ] |}.

(** [storeOfflineTransaction]: every failure is caught and logged, and the
    failure of the [add] request (the generated id is already a key of the
    store) goes unnoticed. *)
Definition storeOfflineTransaction
    (endpoint method_ : string) (body_ : json) (timestamp now : Z) (rnd : string)
    (w : World) : World :=
  match offlineQueue w with
  | None => w
  | Some q =>
      let record :=
        {| q_id := "sw_" ++ toString now ++ "_" ++ rnd; q_endpoint := endpoint;
           q_method := method_; q_body := body_; q_timestamp := timestamp |} in
      match os_add q_id record q with
      | Some q' =>
          {| apiCache := apiCache w; offlineQueue := Some q'; fetched := fetched w |}
      | None => w
      end
  end.

Definition isNonCacheable (pathname_ : string) : bool :=
  existsb (fun endpoint => startsWith pathname_ endpoint) NON_CACHEABLE_ENDPOINTS.

Definition isCacheable (pathname_ : string) : bool :=
  existsb (fun endpoint => startsWith pathname_ endpoint) CACHEABLE_API_ENDPOINTS.

(** [handleAPIRequest]: [net] is the outcome of [fetch(request)], [None]
    when it throws; [now1], [now2] are the two readings of [Date.now()] and
    [rnd] the random suffix of the generated id. *)
Definition handleAPIRequest
    (request : Request) (net : option Response) (now1 now2 : Z) (rnd : string)
    (w : World) : result Response * World :=
  let w := logFetch (url request) w in
  match net with
  | Some response => (Ok response, w)
  | None =>
      if startsWith (pathname request) "/api/transfer/"
         && negb (isNonCacheable (pathname request))
      then
        match reqBody request with
        | None => (Err "SyntaxError", w)
        | Some body_ =>
            (Ok queuedResponse,
             storeOfflineTransaction (pathname request) (method request) body_
               now1 now2 rnd w)
        end
      else (Ok networkUnavailable, w)
  end.

Section Get.
(** [parseInt], [None] standing for [NaN]. *)
Variable parseInt : string -> option Z.

(** The cached entry is served when it carries a non-empty
    [sw-cache-date] whose age is below five minutes. *)
Definition freshEntry (now : Z) (cachedResponse : option Response) : option Response :=
  match cachedResponse with
  | None => None
  | Some c =>
      match headers c !! "sw-cache-date" with
      | None => None
      | Some cacheDate =>
          if String.eqb cacheDate EmptyString then None
          else
            match parseInt cacheDate with
            | None => None
            | Some t => if now - t <? 5 * 60 * 1000 then Some c else None
            end
      end
  end.

(** [handleAPIGet]: [now1] is the clock when the age is computed, [now2]
    when the response is stored. *)
Definition handleAPIGet
    (request : Request) (net : option Response) (now1 now2 : Z)
    (w : World) : Response * World :=
  if negb (isCacheable (pathname request)) then
    let w := logFetch (url request) w in
    match net with
    | Some r => (r, w)
    | None => (networkUnavailable, w)
    end
  else
    let cachedResponse := apiCache w !! url request in
    match freshEntry now1 cachedResponse with
    | Some c => (c, w)
    | None =>
        let w := logFetch (url request) w in
        match net with
        | Some networkResponse =>
            if ok networkResponse then
              let modifiedResponse :=
                {| status := status networkResponse;
                   headers := <["sw-cache-date" := toString now2]> (headers networkResponse);
                   body := body networkResponse |} in
              (networkResponse, cachePut (url request) modifiedResponse w)
            else (networkResponse, w)
        | None =>
            match apiCache w !! url request with
            | Some c => (c, w)
            | None => (offlineNotCached, w)
            end
        end
    end.
End Get.

(** The cache names of the worker. *)
Definition STATIC_CACHE : string := "finxchange-static-v1".
Definition DYNAMIC_CACHE : string := "finxchange-dynamic-v1".
Definition API_CACHE : string := "finxchange-api-v1".

(** The [activate] listener, on the cache storage (cache name to cache):
    every cache whose name is none of the three above is deleted. *)
Definition activate (caches : gmap string (gmap string Response))
    : gmap string (gmap string Response) :=
  filter (fun entry : string * gmap string Response =>
            ~ (entry.1 <> STATIC_CACHE
               /\ entry.1 <> DYNAMIC_CACHE
               /\ entry.1 <> API_CACHE))
         caches.

(** [cacheAPIResponse(endpoint, data, expiry = 5)], called by the [message]
    listener; [expiry] is [None] when the message has no such field, and
    [now1], [now2] are the two readings of [Date.now()]. *)
Definition cacheAPIResponse (endpoint : string) (data_ : json) (expiry : option Z)
    (now1 now2 : Z) (w : World) : World :=
  let minutes := match expiry with Some e => e | None => 5 end in
  let response :=
    {| status := 200;
       headers := {[ "content-type" := "application/json";
                     "sw-cache-date" := toString now1;
                     "sw-cache-expiry" := toString (now2 + minutes * 60 * 1000) ]};
       body := data_ |} in
  cachePut endpoint response w.

End ServiceWorker.

(** ** The queue records of the client *)

Module Queue.

Inductive TransactionType := bank_transfer | wallet_transfer | airtime | data.

Inductive Status := queued | processing | failed.

Definition Status_eqb (a b : Status) : bool :=
  match a, b with
  | queued, queued | processing, processing | failed, failed => true
  | _, _ => false
  end.

(** [interface OfflineTransaction] *)
Record OfflineTransaction := {
  id : string;
  type : TransactionType;
  amount : string;
  description : string;
  recipientDetails : json;
  metadata : option json;
  timestamp : Z;
  status : Status;
}.

(** [{ ...t, status: s }] *)
Definition withStatus (s : Status) (t : OfflineTransaction) : OfflineTransaction :=
  {| id := id t; type := type t; amount := amount t; description := description t;
     recipientDetails := recipientDetails t; metadata := metadata t;
     timestamp := timestamp t; status := s |}.

End Queue.

(** ** [client/src/lib/offline-storage.ts] *)

Module OfflineStorage.
Import Queue.

(** A record of the [offlineTransactions] store:
    [{ ...transaction, userId }]. *)
Record StoredTransaction := {
  userId : string;
  transaction : OfflineTransaction;
}.

Definition keyPath (r : StoredTransaction) : string := id (transaction r).

(** The [OfflineStorage] object and the browser database behind it.
    [indexedDB] is the content of the [offlineTransactions] store, [None]
    when the database cannot be opened; [this.db] is set together with
    [isInitialized], when [indexedDB.open] succeeds. *)
Record Storage := {
  isInitialized : bool;
  indexedDB : option (list StoredTransaction);
}.

Definition this_db (s : Storage) : option (list StoredTransaction) :=
  if isInitialized s then indexedDB s else None.

(** The storage once the database has been opened. *)
Definition opened (st : list StoredTransaction) : Storage :=
  {| isInitialized := true; indexedDB := Some st |}.

(** Asynchronous methods: a state transformer that settles. *)
Definition M (A : Type) : Type := Storage -> result A * Storage.

Definition bind {A B} (m : M A) (k : A -> M B) : M B :=
  fun s =>
    match m s with
    | (Ok a, s') => k a s'
    | (Err e, s') => (Err e, s')
    end.

Notation "m ;;; k" := (bind m (fun _ => k))
  (at level 100, right associativity).

Definition initialize : M unit :=
  fun s =>
    if isInitialized s then (Ok tt, s)
    else
      match indexedDB s with
      | None => (Err "Failed to open IndexedDB", s)
      | Some st => (Ok tt, {| isInitialized := true; indexedDB := Some st |})
      end.

Definition ensureInitialized : M unit :=
  fun s => if negb (isInitialized s) then initialize s else (Ok tt, s).

(** [if (!this.db) throw new Error('Database not initialized')], then a
    request on the object store. *)
Definition onStore {A} (request : list StoredTransaction ->
                                  result A * list StoredTransaction) : M A :=
  fun s =>
    match this_db s with
    | None => (Err "Database not initialized", s)
    | Some st =>
        let (r, st') := request st in
        (r, {| isInitialized := isInitialized s; indexedDB := Some st' |})
    end.

Definition addOfflineTransaction (userId_ : string) (t : OfflineTransaction) : M unit :=
  ensureInitialized ;;;
  onStore (fun st =>
    let transactionWithUserId := {| userId := userId_; transaction := t |} in
    match os_add keyPath transactionWithUserId st with
    | Some st' => (Ok tt, st')
    | None => (Err "Failed to add offline transaction", st)
    end).

(** [store.index('userId').getAll(userId)]: the records of that user, in
    key order. *)
Definition index_getAll (userId_ : string) (st : list StoredTransaction)
    : list StoredTransaction :=
  List.filter (fun r => String.eqb (userId r) userId_) st.

Definition getOfflineTransactions (userId_ : string) : M (list OfflineTransaction) :=
  ensureInitialized ;;;
  onStore (fun st =>
    let transactions := map transaction (index_getAll userId_ st) in
    (Ok (sort_desc timestamp transactions), st)).

Definition removeOfflineTransaction (transactionId : string) : M unit :=
  ensureInitialized ;;;
  onStore (fun st => (Ok tt, os_delete keyPath transactionId st)).

(** The exported helpers. *)
Definition addToOfflineQueue := addOfflineTransaction.
Definition getOfflineQueue := getOfflineTransactions.
Definition removeFromOfflineQueue (userId_ transactionId : string) : M unit :=
  removeOfflineTransaction transactionId.

(** [Partial<OfflineTransaction>]: a field is [None] when it is not given. *)
Record Partial := {
  p_id : option string;
  p_type : option TransactionType;
  p_amount : option string;
  p_description : option string;
  p_recipientDetails : option json;
  p_metadata : option json;
  p_timestamp : option Z;
  p_status : option Status;
}.

(** [{ ...existingTransaction, ...updates }] *)
Definition applyUpdates (updates : Partial) (existing : StoredTransaction)
    : StoredTransaction :=
  let t := transaction existing in
  {| userId := userId existing;
     transaction :=
       {| id := default (id t) (p_id updates);
          type := default (type t) (p_type updates);
          amount := default (amount t) (p_amount updates);
          description := default (description t) (p_description updates);
          recipientDetails := default (recipientDetails t) (p_recipientDetails updates);
          metadata := match p_metadata updates with
                      | Some m => Some m
                      | None => metadata t
                      end;
          timestamp := default (timestamp t) (p_timestamp updates);
          status := default (status t) (p_status updates) |} |}.

Definition updateOfflineTransaction (transactionId : string) (updates : Partial) : M unit :=
  ensureInitialized ;;;
  onStore (fun st =>
    match os_get keyPath transactionId st with
    | None => (Err "Transaction not found", st)
    | Some existingTransaction =>
        (Ok tt, os_put keyPath (applyUpdates updates existingTransaction) st)
    end).

(** [clearOfflineTransactions]: the cursor on the [userId] index deletes
    every record it visits. *)
Definition clearOfflineTransactions (userId_ : string) : M unit :=
  ensureInitialized ;;;
  onStore (fun st =>
    (Ok tt, List.filter (fun r => negb (String.eqb (userId r) userId_)) st)).

End OfflineStorage.

(** ** [offline-storage.ts]: the [userData] and [cacheData] stores *)

Module OfflineData.

(** [value || null] and [if (value)] on a JSON value. *)
Definition truthy (v : json) : bool :=
  match v with
  | JNull => false
  | JBool b => b
  | JNum n => negb (n =? 0)
  | JStr s => negb (String.eqb s EmptyString)
  | JArr _ | JObj _ => true
  end.

(** [interface UserData] *)
Record UserData := {
  userId : string;
  lastSync : Z;
  preferences : json;
}.

(** [Partial<UserData>] *)
Record PartialUserData := {
  p_userId : option string;
  p_lastSync : option Z;
  p_preferences : option json;
}.

(** [interface CacheData] *)
Record CacheData := {
  key : string;
  data : json;
  timestamp : Z;
  expiry : option Z;
}.

(** The two object stores, keyed by [userId] and by [key]. *)
Record Stores := {
  userData : list UserData;
  cacheData : list CacheData;
}.

(** The [OfflineStorage] object seen through these two stores; [indexedDB]
    is [None] when the database cannot be opened. *)
Record Storage := {
  isInitialized : bool;
  indexedDB : option Stores;
}.

Definition M (A : Type) : Type := Storage -> result A * Storage.

Definition bind {A B} (m : M A) (k : A -> M B) : M B :=
  fun s =>
    match m s with
    | (Ok a, s') => k a s'
    | (Err e, s') => (Err e, s')
    end.

Notation "m ;;; k" := (bind m (fun _ => k))
  (at level 100, right associativity).
Notation "x <~ m ;;; k" := (bind m (fun x => k))
  (at level 100, m at next level, right associativity).

Definition ensureInitialized : M unit :=
  fun s =>
    if isInitialized s then (Ok tt, s)
    else
      match indexedDB s with
      | None => (Err "Failed to open IndexedDB", s)
      | Some st => (Ok tt, {| isInitialized := true; indexedDB := Some st |})
      end.

(** [if (!this.db) throw new Error('Database not initialized')], then a
    request on the stores. *)
Definition onStores {A} (request : Stores -> result A * Stores) : M A :=
  fun s =>
    match (if isInitialized s then indexedDB s else None) with
    | None => (Err "Database not initialized", s)
    | Some st =>
        let (r, st') := request st in
        (r, {| isInitialized := isInitialized s; indexedDB := Some st' |})
    end.

Definition withUserData (f : list UserData -> list UserData) (st : Stores) : Stores :=
  {| userData := f (userData st); cacheData := cacheData st |}.

Definition withCacheData (f : list CacheData -> list CacheData) (st : Stores) : Stores :=
  {| userData := userData st; cacheData := f (cacheData st) |}.

(** [setUserData]: the record
    [{ userId, lastSync: Date.now(), preferences: {}, ...data }] is put. *)
Definition setUserData (userId_ : string) (data_ : PartialUserData) (now : Z) : M unit :=
  ensureInitialized ;;;
  onStores (fun st =>
    let record :=
      {| userId := default userId_ (p_userId data_);
         lastSync := default now (p_lastSync data_);
         preferences := default (JObj []) (p_preferences data_) |} in
    (Ok tt, withUserData (os_put userId record) st)).

(** [getUserData]: [request.result || null] *)
Definition getUserData (userId_ : string) : M (option UserData) :=
  ensureInitialized ;;;
  onStores (fun st => (Ok (os_get userId userId_ (userData st)), st)).

Definition setUserPreferences (userId_ : string) (preferences_ : json) (now : Z) : M unit :=
  setUserData userId_
    {| p_userId := None; p_lastSync := None; p_preferences := Some preferences_ |} now.

(** [userData?.preferences || null] *)
Definition getUserPreferences (userId_ : string) : M json :=
  r <~ getUserData userId_ ;;;
  fun s =>
    (Ok (match r with
         | Some u => if truthy (preferences u) then preferences u else JNull
         | None => JNull
         end), s).

(** [setCacheData]: [now1] and [now2] are the two readings of [Date.now()];
    [expiryMinutes] is [None] when the argument is not given. *)
Definition setCacheData (key_ : string) (data_ : json) (expiryMinutes : option Z)
    (now1 now2 : Z) : M unit :=
  ensureInitialized ;;;
  onStores (fun st =>
    let record :=
      {| key := key_; data := data_; timestamp := now1;
         expiry := match expiryMinutes with
                   | Some m => if m =? 0 then None else Some (now2 + m * 60 * 1000)
                   | None => None
                   end |} in
    (Ok tt, withCacheData (os_put key record) st)).

(** [data.expiry && now > data.expiry] *)
Definition expired (now : Z) (c : CacheData) : bool :=
  match expiry c with
  | Some e => negb (e =? 0) && (e <? now)
  | None => false
  end.

(** [getCacheData]: an entry found expired is removed, and [null] is the
    answer. *)
Definition getCacheData (key_ : string) (now : Z) : M json :=
  ensureInitialized ;;;
  onStores (fun st =>
    match os_get key key_ (cacheData st) with
    | None => (Ok JNull, st)
    | Some result_ =>
        if expired now result_
        then (Ok JNull, withCacheData (os_delete key key_) st)
        else (Ok (data result_), st)
    end).

Definition removeCacheData (key_ : string) : M unit :=
  ensureInitialized ;;;
  onStores (fun st => (Ok tt, withCacheData (os_delete key key_) st)).

(** [clearExpiredCache]: the cursor deletes the entries expired at [now]. *)
Definition clearExpiredCache (now : Z) : M unit :=
  ensureInitialized ;;;
  onStores (fun st =>
    (Ok tt, withCacheData (List.filter (fun c => negb (expired now c))) st)).

(** [cacheAPIResponse(endpoint, data, expiryMinutes = 5)] *)
Definition cacheAPIResponse (endpoint : string) (data_ : json) (expiryMinutes : option Z)
    (now1 now2 : Z) : M unit :=
  setCacheData ("api_" ++ endpoint) data_
    (Some (match expiryMinutes with Some m => m | None => 5 end)) now1 now2.

Definition getCachedAPIResponse (endpoint : string) (now : Z) : M json :=
  getCacheData ("api_" ++ endpoint) now.

(** The storage once the database has been opened. *)
Definition opened (st : Stores) : Storage :=
  {| isInitialized := true; indexedDB := Some st |}.

End OfflineData.

(** ** [client/src/hooks/use-offline-queue.tsx]

    The hook is modelled by its state and by the functions it returns; a
    function called later than the render that created it still sees the
    values of that render ([Closure]), while its state updates apply to the
    current state.  Toasts, the one-second pause between two submissions and
    the invalidation of the query cache leave the state alone and are not
    modelled. *)

Module OfflineQueue.
Import Queue OfflineStorage.

(** What a [fetch] of the drain yields: a response with [response.ok], a
    response without it, or an exception. *)
Inductive FetchOutcome := HttpOk | HttpError | NetworkException.

(** The object literal given to [JSON.stringify],
    [{ ...recipientDetails, amount, description, ...metadata }], with its
    two spread operands kept apart. *)
Record RequestBody := {
  b_recipientDetails : json;
  b_amount : string;
  b_description : string;
  b_metadata : option json;
}.

Record FetchCall := {
  endpoint : string;
  payload : RequestBody;
}.

(** The React state of the hook, the storage singleton, and two logs, most
    recent entry first: the [fetch] calls issued, and the successive values
    of the [queuedTransactions] state. *)
Record World := {
  isOnline : bool;
  isProcessing : bool;
  queuedTransactions : list OfflineTransaction;
  storage : Storage;
  requests : list FetchCall;
  queueLog : list (list OfflineTransaction);
}.

(** The values a function of the hook closes over: those of the render
    that created it. *)
Record Closure := {
  c_user : option string;
  c_isOnline : bool;
  c_isProcessing : bool;
  c_queuedTransactions : list OfflineTransaction;
}.

(** [setQueuedTransactions(prev => f(prev))] *)
Definition setQueuedTransactions
    (f : list OfflineTransaction -> list OfflineTransaction) (w : World) : World :=
  let next := f (queuedTransactions w) in
  {| isOnline := isOnline w; isProcessing := isProcessing w;
     queuedTransactions := next; storage := storage w;
     requests := requests w; queueLog := next :: queueLog w |}.

Definition setIsProcessing (b : bool) (w : World) : World :=
  {| isOnline := isOnline w; isProcessing := b;
     queuedTransactions := queuedTransactions w; storage := storage w;
     requests := requests w; queueLog := queueLog w |}.

Definition setStorage (s : Storage) (w : World) : World :=
  {| isOnline := isOnline w; isProcessing := isProcessing w;
     queuedTransactions := queuedTransactions w; storage := s;
     requests := requests w; queueLog := queueLog w |}.

Definition logRequest (c : FetchCall) (w : World) : World :=
  {| isOnline := isOnline w; isProcessing := isProcessing w;
     queuedTransactions := queuedTransactions w; storage := storage w;
     requests := c :: requests w; queueLog := queueLog w |}.

(** [prev.map(t => t.id === transactionId ? { ...t, status } : t)] *)
Definition markStatus (transactionId : string) (s : Status)
    (prev : list OfflineTransaction) : list OfflineTransaction :=
  map (fun t => if String.eqb (id t) transactionId then withStatus s t else t) prev.

(** [prev.filter(t => t.id !== transactionId)] *)
Definition dropId (transactionId : string)
    (prev : list OfflineTransaction) : list OfflineTransaction :=
  List.filter (fun t => negb (String.eqb (id t) transactionId)) prev.

Definition loadQueuedTransactions (user : option string) (w : World) : World :=
  match user with
  | None => w
  | Some userId_ =>
      match getOfflineQueue userId_ (storage w) with
      | (Ok queue, s') => setQueuedTransactions (fun _ => queue) (setStorage s' w)
      | (Err _, s') => setStorage s' w
      end
  end.

(** [Omit<OfflineTransaction, 'id' | 'timestamp' | 'status'>] *)
Record NewTransaction := {
  n_type : TransactionType;
  n_amount : string;
  n_description : string;
  n_recipientDetails : json;
  n_metadata : option json;
}.

(** The id [`offline_${Date.now()}_${Math.random().toString(36).substr(2, 9)}`];
    [rnd] is the random suffix. *)
Definition offlineId (now : Z) (rnd : string) : string :=
  "offline_" ++ toString now ++ "_" ++ rnd.

Definition newQueuedTransaction (t : NewTransaction) (now1 : Z) (rnd : string) (now2 : Z)
    : OfflineTransaction :=
  {| id := offlineId now1 rnd; type := n_type t; amount := n_amount t;
     description := n_description t; recipientDetails := n_recipientDetails t;
     metadata := n_metadata t; timestamp := now2; status := queued |}.

(** [addTransactionToQueue]: [now1] and [now2] are the two readings of
    [Date.now()]. *)
Definition addTransactionToQueue
    (user : option string) (t : NewTransaction) (now1 : Z) (rnd : string) (now2 : Z)
    (w : World) : World :=
  match user with
  | None => w
  | Some userId_ =>
      let queuedTransaction := newQueuedTransaction t now1 rnd now2 in
      match addToOfflineQueue userId_ queuedTransaction (storage w) with
      | (Ok _, s') =>
          setQueuedTransactions (fun prev => prev ++ [queuedTransaction])%list
            (setStorage s' w)
      | (Err _, s') => setStorage s' w
      end
  end.

Definition endpointOf (ty : TransactionType) : string :=
  match ty with
  | bank_transfer => "/api/transfer/bank"
  | wallet_transfer => "/api/transfer/wallet"
  | airtime | data => "/api/bills/purchase"
  end.

Definition fetchCallOf (t : OfflineTransaction) : FetchCall :=
  {| endpoint := endpointOf (type t);
     payload := {| b_recipientDetails := recipientDetails t; b_amount := amount t;
                   b_description := description t; b_metadata := metadata t |} |}.

(** The body of the loop of [processQueuedTransactions] for a record of the
    snapshot whose status is [queued]. *)
Definition processOne (userId_ : string) (t : OfflineTransaction)
    (outcome : FetchOutcome) (w : World) : World :=
  let w := setQueuedTransactions (markStatus (id t) processing) w in
  let w := logRequest (fetchCallOf t) w in
  match outcome with
  | HttpOk =>
      match removeFromOfflineQueue userId_ (id t) (storage w) with
      | (Ok _, s') => setQueuedTransactions (dropId (id t)) (setStorage s' w)
      | (Err _, s') => setQueuedTransactions (markStatus (id t) failed) (setStorage s' w)
      end
  | HttpError => setQueuedTransactions (markStatus (id t) failed) w
  | NetworkException => setQueuedTransactions (markStatus (id t) failed) w
  end.

(** [for (const transaction of queuedTransactions)]: [net k] is the outcome
    of the [k]-th [fetch] of the pass. *)
Fixpoint drainLoop (userId_ : string) (net : nat -> FetchOutcome)
    (snapshot : list OfflineTransaction) (k : nat) (w : World) : World :=
  match snapshot with
  | [] => w
  | t :: rest =>
      if Status_eqb (status t) queued
      then drainLoop userId_ net rest (S k) (processOne userId_ t (net k) w)
      else drainLoop userId_ net rest k w
  end.

Definition processQueuedTransactions (cl : Closure) (net : nat -> FetchOutcome)
    (w : World) : World :=
  match c_user cl with
  | None => w
  | Some userId_ =>
      if negb (c_isOnline cl) || c_isProcessing cl
         || (length (c_queuedTransactions cl) =? 0)%nat
      then w
      else
        setIsProcessing false
          (drainLoop userId_ net (c_queuedTransactions cl) 0 (setIsProcessing true w))
  end.

Definition retryFailedTransaction (cl : Closure) (transactionId : string)
    (net : nat -> FetchOutcome) (w : World) : World :=
  let w := setQueuedTransactions (markStatus transactionId queued) w in
  if c_isOnline cl then processQueuedTransactions cl net w else w.

Definition removeTransaction (user : option string) (transactionId : string)
    (w : World) : World :=
  match user with
  | None => w
  | Some userId_ =>
      match removeFromOfflineQueue userId_ transactionId (storage w) with
      | (Ok _, s') => setQueuedTransactions (dropId transactionId) (setStorage s' w)
      | (Err _, s') => setStorage s' w
      end
  end.

(** The closure of the render that shows world [w] to user [user]. *)
Definition render (user : option string) (w : World) : Closure :=
  {| c_user := user; c_isOnline := isOnline w; c_isProcessing := isProcessing w;
     c_queuedTransactions := queuedTransactions w |}.

Definition setIsOnline (b : bool) (w : World) : World :=
  {| isOnline := b; isProcessing := isProcessing w;
     queuedTransactions := queuedTransactions w; storage := storage w;
     requests := requests w; queueLog := queueLog w |}.

(** The closure of the first render: [useState(navigator.onLine)],
    [useState(false)] and [useState([])]. *)
Definition firstRender (user : option string) (onLine : bool) : Closure :=
  {| c_user := user; c_isOnline := onLine; c_isProcessing := false;
     c_queuedTransactions := [] |}.

(** The listeners of the [online] and [offline] events.  They are
    registered once, by an effect without dependencies, and so call the
    functions of the render of the mount. *)
Definition handleOnline (mount : Closure) (net : nat -> FetchOutcome) (w : World) : World :=
  processQueuedTransactions mount net (setIsOnline true w).

Definition handleOffline (w : World) : World := setIsOnline false w.

(** The loop of [clearQueue]: it stops at the first removal that fails. *)
Fixpoint removeEach (userId_ : string) (ts : list OfflineTransaction) (s : Storage)
    : result unit * Storage :=
  match ts with
  | [] => (Ok tt, s)
  | t :: rest =>
      match removeFromOfflineQueue userId_ (id t) s with
      | (Ok _, s') => removeEach userId_ rest s'
      | (Err e, s') => (Err e, s')
      end
  end.

Definition clearQueue (cl : Closure) (w : World) : World :=
  match c_user cl with
  | None => w
  | Some userId_ =>
      match removeEach userId_ (c_queuedTransactions cl) (storage w) with
      | (Ok _, s') => setQueuedTransactions (fun _ => []) (setStorage s' w)
      | (Err _, s') => setStorage s' w
      end
  end.

End OfflineQueue.

(** ** The Express back end: storage layer and Squad webhook

    The methods of [DatabaseStorage] are functions of the tables.  One
    statement of the webhook can be refused on account of its data: the
    update of a balance, a [decimal(12, 2)] column, with the text the
    route computes; the method then throws and the [catch] block of the
    route answers HTTP 500.  A failure of the connection to the database
    is outside this model. *)

Module Server.

Inductive TransactionStatus := pending | success | failed | cancelled.

(** A row of [transactions]. *)
Record Transaction := {
  id : string;
  userId : string;
  type : string;
  amount : string;
  description : string;
  reference : string;
  status : option TransactionStatus;
  squadReference : option string;
  createdAt : Z;
  updatedAt : Z;
}.

(** A row of [wallets]. *)
Record Wallet := {
  w_id : string;
  w_userId : string;
  balance : option string;
  ledgerBalance : option string;
  w_updatedAt : Z;
}.

Record Database := {
  wallets : list Wallet;
  transactions : list Transaction;
}.

(** [getTransactions(userId, limit)]: the rows of that user, newest first,
    at most [limit] of them. *)
Definition getTransactions (userId_ : string) (limit : nat) (db : Database)
    : list Transaction :=
  firstn limit
    (sort_desc createdAt
       (List.filter (fun t => String.eqb (userId t) userId_) (transactions db))).

Definition getWallet (userId_ : string) (db : Database) : option Wallet :=
  hd_error (List.filter (fun w => String.eqb (w_userId w) userId_) (wallets db)).

Section Columns.
(** [decimal("balance", { precision: 12, scale: 2 })]: what the database
    makes of a text given for the column.  [None] when it refuses the
    statement (the text is no number, or the number does not fit the
    twelve digits); otherwise the text that is read back from the column,
    which has two decimals and need not be the text given. *)
Variable decimal_12_2 : string -> option string.

(** [updateWalletBalance(userId, balance)]: [None] when the statement is
    refused; the promise is then rejected and no row is changed. *)
Definition updateWalletBalance (userId_ balance_ : string) (now : Z) (db : Database)
    : option Database :=
  match decimal_12_2 balance_ with
  | None => None
  | Some stored =>
      Some
        {| wallets :=
             map (fun w =>
                    if String.eqb (w_userId w) userId_
                    then {| w_id := w_id w; w_userId := w_userId w;
                            balance := Some stored;
                            ledgerBalance := ledgerBalance w; w_updatedAt := now |}
                    else w) (wallets db);
           transactions := transactions db |}
  end.
End Columns.

(** [updateTransaction(id, { status })] *)
Definition updateTransaction (id_ : string) (status_ : TransactionStatus) (now : Z)
    (db : Database) : Database :=
  {| wallets := wallets db;
     transactions :=
       map (fun t =>
              if String.eqb (id t) id_
              then {| id := id t; userId := userId t; type := type t; amount := amount t;
                      description := description t; reference := reference t;
                      status := Some status_; squadReference := squadReference t;
                      createdAt := createdAt t; updatedAt := now |}
              else t) (transactions db) |}.

(** [t.squadReference === transaction_reference], the right-hand side being
    a field of the parsed request body ([None] when the field is missing). *)
Definition strictEq (stored : option string) (v : option json) : bool :=
  match stored, v with
  | Some s, Some (JStr s') => String.eqb s s'
  | None, Some JNull => true
  | _, _ => false
  end.

Definition isString (s : string) (v : option json) : bool :=
  match v with
  | Some (JStr s') => String.eqb s' s
  | _ => false
  end.

(** [amount.replace('-', '')]: the first dash is removed. *)
Fixpoint removeFirstDash (s : string) : string :=
  match s with
  | EmptyString => EmptyString
  | String c s' =>
      if Ascii.eqb c "-"%char then s' else String c (removeFirstDash s')
  end.

Record HttpResponse := {
  code : Z;
  content : json;
}.

(** [res.json({ message: "Webhook processed" })] *)
Definition processed : HttpResponse :=
  {| code := 200; content := JObj [ ("message", JStr "Webhook processed") ] |}.

(** [res.status(500).json({ message: "Webhook processing failed" })], the
    answer of the [catch] block. *)
Definition processingFailed : HttpResponse :=
  {| code := 500; content := JObj [ ("message", JStr "Webhook processing failed") ] |}.

Section Webhook.
Variable decimal_12_2 : string -> option string.
(** JavaScript numbers: [parseFloat], [+] and [Number.prototype.toString]. *)
Context {Num : Type}.
Variable parseFloat : string -> Num.
Variable add : Num -> Num -> Num.
Variable numToString : Num -> string.

(** The refund of the [failed] branch; [None] when the update of the
    balance throws. *)
Definition refund (transaction : Transaction) (now : Z) (db : Database)
    : option Database :=
  match getWallet (userId transaction) db with
  | Some wallet =>
      match balance wallet with
      | Some b =>
          if String.eqb b EmptyString then Some db
          else
            let currentBalance := parseFloat b in
            let refundAmount :=
              numToString
                (add currentBalance (parseFloat (removeFirstDash (amount transaction)))) in
            updateWalletBalance decimal_12_2 (userId transaction) refundAmount now db
      | None => Some db
      end
  | None => Some db
  end.

(** [POST /api/webhooks/squad]; [now1] and [now2] are the values of
    [now()] in the two updates.  When the update of the balance throws,
    the [catch] block answers and the status of the transaction is not
    updated. *)
Definition squadWebhook (transaction_reference transaction_status : option json)
    (now1 now2 : Z) (db : Database) : HttpResponse * Database :=
  let transactions_ := getTransactions EmptyString 1000 db in
  let found :=
    find (fun t => strictEq (squadReference t) transaction_reference) transactions_ in
  match found with
  | Some transaction =>
      if isString "success" transaction_status then
        (processed, updateTransaction (id transaction) success now2 db)
      else if isString "failed" transaction_status then
        match refund transaction now1 db with
        | Some db' => (processed, updateTransaction (id transaction) failed now2 db')
        | None => (processingFailed, db)
        end
      else
        (processed, updateTransaction (id transaction) pending now2 db)
  | None => (processed, db)
  end.
End Webhook.

End Server.

(** ** The Express back end: users, one-time passwords and beneficiaries

    The request bodies of the routes below are taken with string fields,
    but for the PIN, which the route itself inspects. *)

Module Accounts.

Inductive UserStatus := pending | active | suspended | blocked.

(** A row of [users]. *)
Record User := {
  id : string;
  email : string;
  phone : string;
  password : string;
  firstName : string;
  lastName : string;
  status : option UserStatus;
  transactionPin : option string;
  isPhoneVerified : option bool;
  updatedAt : Z;
}.

(** A row of [otp_verifications]. *)
Record OtpVerification := {
  o_id : string;
  o_userId : option string;
  code : string;
  o_type : string;
  expiresAt : Z;
  isUsed : option bool;
  attempts : option Z;
}.

(** A row of [beneficiaries]. *)
Record Beneficiary := {
  b_id : string;
  b_userId : string;
  accountNumber : string;
  accountName : string;
  bankCode : string;
  isActive : option bool;
  b_createdAt : Z;
  b_updatedAt : Z;
}.

Record Tables := {
  users : list User;
  otpVerifications : list OtpVerification;
  beneficiaries : list Beneficiary;
}.

Definition getUser (id_ : string) (db : Tables) : option User :=
  hd_error (List.filter (fun u => String.eqb (id u) id_) (users db)).

Definition getUserByEmail (email_ : string) (db : Tables) : option User :=
  hd_error (List.filter (fun u => String.eqb (email u) email_) (users db)).

(** The fields the routes below give to [updateUser]. *)
Record UserUpdates := {
  set_status : option UserStatus;
  set_transactionPin : option string;
  set_isPhoneVerified : option bool;
}.

Definition updateUser (id_ : string) (updates : UserUpdates) (now : Z) (db : Tables)
    : Tables :=
  {| users :=
       map (fun u =>
              if String.eqb (id u) id_
              then {| id := id u; email := email u; phone := phone u;
                      password := password u; firstName := firstName u;
                      lastName := lastName u;
                      status := match set_status updates with
                                | Some s => Some s
                                | None => status u
                                end;
                      transactionPin := match set_transactionPin updates with
                                        | Some p => Some p
                                        | None => transactionPin u
                                        end;
                      isPhoneVerified := match set_isPhoneVerified updates with
                                         | Some b => Some b
                                         | None => isPhoneVerified u
                                         end;
                      updatedAt := now |}
              else u) (users db);
     otpVerifications := otpVerifications db;
     beneficiaries := beneficiaries db |}.

(** [getOtpVerification(code, type)]: the first row with that code and
    type that is not used. *)
Definition unusedOtp (code_ type_ : string) (o : OtpVerification) : bool :=
  String.eqb (code o) code_ && String.eqb (o_type o) type_
  && match isUsed o with Some false => true | _ => false end.

Definition getOtpVerification (code_ type_ : string) (db : Tables)
    : option OtpVerification :=
  hd_error (List.filter (unusedOtp code_ type_) (otpVerifications db)).

Definition markOtpAsUsed (id_ : string) (db : Tables) : Tables :=
  {| users := users db;
     otpVerifications :=
       map (fun o =>
              if String.eqb (o_id o) id_
              then {| o_id := o_id o; o_userId := o_userId o; code := code o;
                      o_type := o_type o; expiresAt := expiresAt o;
                      isUsed := Some true; attempts := attempts o |}
              else o) (otpVerifications db);
     beneficiaries := beneficiaries db |}.

(** [getBeneficiaries(userId)]: the active rows of that user, newest
    first. *)
Definition getBeneficiaries (userId_ : string) (db : Tables) : list Beneficiary :=
  sort_desc b_createdAt
    (List.filter (fun b => String.eqb (b_userId b) userId_
                           && match isActive b with Some true => true | _ => false end)
       (beneficiaries db)).

Definition getBeneficiary (id_ : string) (db : Tables) : option Beneficiary :=
  hd_error (List.filter (fun b => String.eqb (b_id b) id_) (beneficiaries db)).

(** [deleteBeneficiary(id)]: the row is kept and marked inactive; the
    result tells whether a row has that id. *)
Definition deleteBeneficiary (id_ : string) (now : Z) (db : Tables) : bool * Tables :=
  (existsb (fun b => String.eqb (b_id b) id_) (beneficiaries db),
   {| users := users db;
      otpVerifications := otpVerifications db;
      beneficiaries :=
        map (fun b =>
               if String.eqb (b_id b) id_
               then {| b_id := b_id b; b_userId := b_userId b;
                       accountNumber := accountNumber b; accountName := accountName b;
                       bankCode := bankCode b; isActive := Some false;
                       b_createdAt := b_createdAt b; b_updatedAt := now |}
               else b) (beneficiaries db) |}).

(** A response: the status code and the [message] of the body. *)
Record Reply := {
  code_ : Z;
  message : string;
}.

(** [requireAuth]: the user id of the session, when it has one that is not
    empty. *)
Definition requireAuth (session : option string) : option string :=
  match session with
  | Some userId_ => if String.eqb userId_ EmptyString then None else Some userId_
  | None => None
  end.

Definition isDigit (c : ascii) : bool :=
  let n := nat_of_ascii c in (48 <=? n)%nat && (n <=? 57)%nat.

(** [!pin || pin.length !== 4 || !/^\d{4}$/.test(pin)] fails: the PIN the
    route accepts.  A value that is not a string never passes. *)
Definition acceptedPin (pin : option json) : option string :=
  match pin with
  | Some (JStr s) =>
      if negb (String.eqb s EmptyString)
         && (String.length s =? 4)%nat
         && forallb isDigit (list_ascii_of_string s)
      then Some s else None
  | _ => None
  end.

Section Routes.
(** [bcrypt.hash(pin, 12)], with the salt it draws, and [bcrypt.compare]. *)
Variable hash : string -> string -> string.
Variable compare : string -> string -> bool.

(** [POST /api/auth/set-pin] *)
Definition setPin (session : option string) (pin : option json) (salt : string)
    (now : Z) (db : Tables) : Reply * Tables :=
  match requireAuth session with
  | None => ({| code_ := 401; message := "Authentication required" |}, db)
  | Some userId_ =>
      match acceptedPin pin with
      | None => ({| code_ := 400; message := "PIN must be 4 digits" |}, db)
      | Some p =>
          let hashedPin := hash p salt in
          ({| code_ := 200; message := "Transaction PIN set successfully" |},
           updateUser userId_
             {| set_status := None; set_transactionPin := Some hashedPin;
                set_isPhoneVerified := None |} now db)
      end
  end.

(** [POST /api/auth/login]: the reply and the session after the request. *)
Definition login (email_ password_ : string) (session : option string) (db : Tables)
    : Reply * option string :=
  match getUserByEmail email_ db with
  | None => ({| code_ := 401; message := "Invalid credentials" |}, session)
  | Some user =>
      if negb (compare password_ (password user)) then
        ({| code_ := 401; message := "Invalid credentials" |}, session)
      else
        match status user with
        | Some suspended | Some blocked =>
            ({| code_ := 403; message := "Account is suspended or blocked" |}, session)
        | _ => ({| code_ := 200; message := "Login successful" |}, Some (id user))
        end
  end.

(** [POST /api/auth/verify-otp]: the reply, the session and the tables
    after the request. *)
Definition verifyOtp (code__ type_ userId_ : string) (now1 now2 : Z)
    (session : option string) (db : Tables) : Reply * option string * Tables :=
  match getOtpVerification code__ type_ db with
  | None => ({| code_ := 400; message := "Invalid or expired OTP" |}, session, db)
  | Some otpRecord =>
      if expiresAt otpRecord <? now1 then
        ({| code_ := 400; message := "OTP has expired" |}, session, db)
      else if negb (match o_userId otpRecord with
                    | Some u => String.eqb u userId_
                    | None => false
                    end) then
        ({| code_ := 400; message := "Invalid OTP for this user" |}, session, db)
      else
        let db := markOtpAsUsed (o_id otpRecord) db in
        let db :=
          if String.eqb type_ "registration"
          then updateUser userId_
                 {| set_status := Some active; set_transactionPin := None;
                    set_isPhoneVerified := Some true |} now2 db
          else db in
        ({| code_ := 200; message := "Verification successful" |}, Some userId_, db)
  end.
End Routes.

End Accounts.

(** ** What the specification says of the queue

    These definitions follow the words of the specification; the theorems
    below compare them with the code above. *)

Module QueueSpec.
Import Queue OfflineStorage OfflineQueue.

(** The status of the record with a given id in the in-memory queue;
    [None] when the queue holds no such record. *)
Definition status_of (i : string) (q : list OfflineTransaction) : option Status :=
  option_map status (find (fun t => String.eqb (id t) i) q).








(** The outcome of each record of a drain pass: the [k]-th record in state
    [queued] gets the outcome of the [k]-th submission, the other records
    are not submitted. *)
Fixpoint outcomes (net : nat -> FetchOutcome) (k : nat) (q : list OfflineTransaction)
    : list (OfflineTransaction * option FetchOutcome) :=
  match q with
  | [] => []
  | t :: rest =>
      if Status_eqb (status t) queued
      then (t, Some (net k)) :: outcomes net (S k) rest
      else (t, None) :: outcomes net k rest
  end.

(** What becomes of one record: deleted when its submission succeeds,
    marked [failed] when it fails, untouched when it is not submitted. *)
Definition settleOne (r : OfflineTransaction * option FetchOutcome)
    : list OfflineTransaction :=
  match r with
  | (t, Some HttpOk) => []
  | (t, Some _) => [withStatus failed t]
  | (t, None) => [t]
  end.

Definition submitted (rs : list (OfflineTransaction * option FetchOutcome))
    : list OfflineTransaction :=
  flat_map (fun r => match snd r with Some _ => [fst r] | None => [] end) rs.

Definition succeeded (rs : list (OfflineTransaction * option FetchOutcome))
    : list string :=
  flat_map (fun r => match snd r with Some HttpOk => [id (fst r)] | _ => [] end) rs.

(** The store once the records with the given ids have been deleted. *)
Definition purge (ids : list string) (st : list StoredTransaction)
    : list StoredTransaction :=
  fold_left (fun st i => os_delete keyPath i st) ids st.

End QueueSpec.

(** ** The hook as a transition system

    What the hook returns to its callers are functions; each of them, and
    each of the two listeners, runs with the closure of the render that
    created it, which may be older than the state it runs on. *)

Module HookSystem.
Import Queue OfflineStorage OfflineQueue.

Inductive Call :=
| CallLoad (user : option string)
| CallAdd (user : option string) (t : NewTransaction) (now1 : Z) (rnd : string)
    (now2 : Z)
| CallProcess (cl : Closure) (net : nat -> FetchOutcome)
| CallRetry (cl : Closure) (transactionId : string) (net : nat -> FetchOutcome)
| CallRemove (user : option string) (transactionId : string)
| CallClear (cl : Closure)
| EventOnline (mount : Closure) (net : nat -> FetchOutcome)
| EventOffline.

Definition run (c : Call) (w : World) : World :=
  match c with
  | CallLoad user => loadQueuedTransactions user w
  | CallAdd user t now1 rnd now2 => addTransactionToQueue user t now1 rnd now2 w
  | CallProcess cl net => processQueuedTransactions cl net w
  | CallRetry cl transactionId net => retryFailedTransaction cl transactionId net w
  | CallRemove user transactionId => removeTransaction user transactionId w
  | CallClear cl => clearQueue cl w
  | EventOnline mount net => handleOnline mount net w
  | EventOffline => handleOffline w
  end.

Definition runAll (cs : list Call) (w : World) : World :=
  fold_left (fun w c => run c w) cs w.

(** The records of [q] are held by the store [st]: each id of [q] is a key
    of [st]. *)
Definition held (st : list StoredTransaction) (q : list OfflineTransaction) : Prop :=
  forall t, In t q -> os_get keyPath (id t) st <> None.

(** The store is open and holds every record the hook shows. *)
Definition backed (w : World) : Prop :=
  exists st, indexedDB (storage w) = Some st /\ held st (queuedTransactions w).

End HookSystem.

(** * Properties *)

(** ** Strings *)

Lemma prefix_trans (a b c : string) :
  String.prefix a b = true -> String.prefix b c = true -> String.prefix a c = true.
Proof.
  revert a b. induction c as [|x c IH]; intros a b Hab Hbc.
  - destruct b; [|discriminate]. destruct a; [reflexivity|discriminate].
  - destruct a as [|y a]; [reflexivity|].
    destruct b as [|z b]; [discriminate|].
    simpl in Hab, Hbc |- *.
    destruct (ascii_dec y z) as [->|]; [|discriminate].
    destruct (ascii_dec z x) as [->|]; [|discriminate].
    eapply IH; eassumption.
Qed.

Lemma existsb_startsWith_api (p : string) (endpoints : list string) :
  Forall (fun e => String.prefix "/api/" e = true) endpoints ->
  existsb (fun e => startsWith p e) endpoints = true ->
  startsWith p "/api/" = true.
Proof.
  intros Hall Hex. apply existsb_exists in Hex as (e & Hin & He).
  rewrite List.Forall_forall in Hall. unfold startsWith in *.
  eapply prefix_trans; [apply Hall, Hin | exact He].
Qed.

(** ** The service worker *)

Module ServiceWorkerFacts.
Import ServiceWorker.

Lemma isNonCacheable_api (p : string) :
  isNonCacheable p = true -> startsWith p "/api/" = true.
Proof.
  apply existsb_startsWith_api.
  unfold NON_CACHEABLE_ENDPOINTS. repeat constructor.
Qed.

Lemma isCacheable_api (p : string) :
  isCacheable p = true -> startsWith p "/api/" = true.
Proof.
  apply existsb_startsWith_api.
  unfold CACHEABLE_API_ENDPOINTS. repeat constructor.
Qed.

(** Every path under [/api/transfer/] is matched by the list of endpoints
    excluded from queueing. *)
Lemma transfer_isNonCacheable (p : string) :
  startsWith p "/api/transfer/" = true -> isNonCacheable p = true.
Proof.
  intros H. apply existsb_exists. exists "/api/transfer/". split; [|exact H].
  unfold NON_CACHEABLE_ENDPOINTS. simpl. tauto.
Qed.

(** The queueing branch of [handleAPIRequest] is never taken. *)
Lemma queue_guard_false (p : string) :
  startsWith p "/api/transfer/" && negb (isNonCacheable p) = false.
Proof.
  destruct (startsWith p "/api/transfer/") eqn:H; [|reflexivity].
  rewrite (transfer_isNonCacheable _ H). reflexivity.
Qed.

Lemma handleAPIRequest_offline request now1 now2 rnd w :
  handleAPIRequest request None now1 now2 rnd w
  = (Ok networkUnavailable, logFetch (url request) w).
Proof.
  unfold handleAPIRequest. rewrite queue_guard_false. reflexivity.
Qed.

Lemma fetchListener_write (request : Request) :
  method request <> "GET" ->
  startsWith (pathname request) "/api/" = true ->
  fetchListener request = ToAPIRequest.
Proof.
  intros Hm Hp. unfold fetchListener.
  destruct (String.eqb_spec (method request) "GET") as [E|_]; [contradiction|].
  simpl. rewrite Hp. reflexivity.
Qed.

(** C2: a [POST] to [/api/transfer/bank] while the network is unreachable
    is answered with the 503 hard failure and nothing is added to the
    offline queue: the branch that queues the request and answers 202 is
    guarded by [!isNonCacheable], and [/api/transfer/] is listed in
    [NON_CACHEABLE_ENDPOINTS]. *)
Theorem transfer_write_offline_gets_503 :
  let request :=
    {| url := "https://finxchange.app/api/transfer/bank";
       pathname := "/api/transfer/bank";
       method := "POST";
       reqBody := Some (JObj [ ("amount", JStr "500"); ("bankCode", JStr "058");
                               ("accountNumber", JStr "0123456789") ]) |} in
  let w := {| apiCache := ∅; offlineQueue := Some []; fetched := [] |} in
  let out := handleAPIRequest request None 1700000000000 1700000000001 "k3j9x0a1b" w in
  fetchListener request = ToAPIRequest
  /\ fst out = Ok networkUnavailable
  /\ fst out <> Ok queuedResponse
  /\ status networkUnavailable = 503
  /\ offlineQueue (snd out) = Some [].
Proof.
  intros request w out. subst out. rewrite handleAPIRequest_offline.
  repeat split; try reflexivity. discriminate.
Qed.

(** C4: a non-GET request to an endpoint of [NON_CACHEABLE_ENDPOINTS]
    issued while the network is unreachable is routed to
    [handleAPIRequest], which answers with the 503 hard failure and leaves
    the offline queue as it was. *)
Theorem non_cacheable_write_offline_not_queued
    (request : Request) (now1 now2 : Z) (rnd : string) (w : World) :
  method request <> "GET" ->
  isNonCacheable (pathname request) = true ->
  let out := handleAPIRequest request None now1 now2 rnd w in
  fetchListener request = ToAPIRequest
  /\ fst out = Ok networkUnavailable
  /\ status networkUnavailable = 503
  /\ offlineQueue (snd out) = offlineQueue w
  /\ apiCache (snd out) = apiCache w.
Proof.
  intros Hm Hn out. subst out. rewrite handleAPIRequest_offline.
  repeat split; try reflexivity.
  apply fetchListener_write; [exact Hm | apply isNonCacheable_api, Hn].
Qed.

Lemma non_cacheable_write_offline_not_queued_witness :
  let request :=
    {| url := "https://finxchange.app/api/auth/login";
       pathname := "/api/auth/login"; method := "POST";
       reqBody := Some (JObj [ ("email", JStr "a@b.c") ]) |} in
  let w := {| apiCache := ∅; offlineQueue := Some []; fetched := [] |} in
  let out := handleAPIRequest request None 10 11 "r" w in
  fetchListener request = ToAPIRequest
  /\ fst out = Ok networkUnavailable
  /\ status networkUnavailable = 503
  /\ offlineQueue (snd out) = offlineQueue w
  /\ apiCache (snd out) = apiCache w.
Proof.
  intros request w.
  apply (non_cacheable_write_offline_not_queued request 10 11 "r" w).
  - discriminate.
  - reflexivity.
Defined.

(** C5: a GET request to a cacheable read endpoint whose cached entry
    carries an [sw-cache-date] less than five minutes old is answered with
    the cached entry, and nothing is fetched from the network: the log of
    fetches and the cache are unchanged. *)
Theorem fresh_cache_entry_served_without_network
    (parseInt : string -> option Z)
    (request : Request) (net : option Response) (now1 now2 : Z) (w : World)
    (c : Response) (cacheDate : string) (t : Z) :
  method request = "GET" ->
  isCacheable (pathname request) = true ->
  apiCache w !! url request = Some c ->
  headers c !! "sw-cache-date" = Some cacheDate ->
  cacheDate <> EmptyString ->
  parseInt cacheDate = Some t ->
  now1 - t < 5 * 60 * 1000 ->
  fetchListener request = ToAPIGet
  /\ handleAPIGet parseInt request net now1 now2 w = (c, w)
  /\ fetched (snd (handleAPIGet parseInt request net now1 now2 w)) = fetched w.
Proof.
  intros Hm Hc Hlook Hdate Hne Hparse Hage.
  assert (Hget : handleAPIGet parseInt request net now1 now2 w = (c, w)).
  { unfold handleAPIGet, freshEntry. rewrite Hc. simpl. rewrite Hlook, Hdate.
    destruct (String.eqb_spec cacheDate EmptyString) as [E|_]; [contradiction|].
    rewrite Hparse.
    destruct (Z.ltb_spec (now1 - t) (5 * 60 * 1000)) as [_|Hge]; [reflexivity|lia]. }
  split; [|split].
  - unfold fetchListener. rewrite Hm. simpl.
    rewrite (isCacheable_api _ Hc). reflexivity.
  - exact Hget.
  - rewrite Hget. reflexivity.
Qed.

Lemma fresh_cache_entry_served_without_network_witness :
  let parseInt := fun s : string => if String.eqb s "1000" then Some 1000 else None in
  let c := {| status := 200;
              headers := {[ "sw-cache-date" := "1000" ]};
              body := JObj [ ("balance", JStr "250.00") ] |} in
  let request := {| url := "https://finxchange.app/api/wallet";
                    pathname := "/api/wallet"; method := "GET"; reqBody := None |} in
  let w := {| apiCache := {[ "https://finxchange.app/api/wallet" := c ]};
              offlineQueue := None; fetched := [] |} in
  fetchListener request = ToAPIGet
  /\ handleAPIGet parseInt request None 200000 200001 w = (c, w)
  /\ fetched (snd (handleAPIGet parseInt request None 200000 200001 w)) = fetched w.
Proof.
  intros parseInt c request w.
  apply (fresh_cache_entry_served_without_network
           parseInt request None 200000 200001 w c "1000" 1000).
  - reflexivity.
  - reflexivity.
  - apply lookup_singleton_eq.
  - apply lookup_singleton_eq.
  - discriminate.
  - reflexivity.
  - lia.
Defined.

End ServiceWorkerFacts.

(** ** The stable sort *)

Section StableSortFacts.
Context {A : Type} (key : A -> Z).

Lemma insert_desc_perm (x : A) (l : list A) :
  Permutation (insert_desc key x l) (x :: l).
Proof.
  induction l as [|y l IH]; simpl; [reflexivity|].
  destruct (key x <? key y); [|reflexivity].
  rewrite IH. apply perm_swap.
Qed.

Lemma sort_desc_perm (l : list A) : Permutation (sort_desc key l) l.
Proof.
  induction l as [|x l IH]; simpl; [reflexivity|].
  rewrite insert_desc_perm. apply perm_skip, IH.
Qed.

Lemma sort_desc_In (x : A) (l : list A) : In x (sort_desc key l) <-> In x l.
Proof.
  split; apply Permutation_in; [|symmetry]; apply sort_desc_perm.
Qed.

Lemma insert_desc_sorted (x : A) (l : list A) :
  desc_sorted key l -> desc_sorted key (insert_desc key x l).
Proof.
  induction 1 as [|y l Hall Hl IH]; simpl.
  - constructor; constructor.
  - destruct (Z.ltb_spec (key x) (key y)) as [Hlt|Hge].
    + constructor; [|exact IH].
      rewrite List.Forall_forall. intros z Hz.
      apply (Permutation_in _ (insert_desc_perm x l)) in Hz.
      rewrite List.Forall_forall in Hall.
      destruct Hz as [<-|Hz]; [lia | apply Hall, Hz].
    + constructor; [|constructor; assumption].
      constructor; [exact Hge|].
      eapply List.Forall_impl; [|exact Hall]. simpl. intros; lia.
Qed.

Lemma sort_desc_sorted (l : list A) : desc_sorted key (sort_desc key l).
Proof.
  induction l as [|x l IH]; simpl; [constructor|].
  apply insert_desc_sorted, IH.
Qed.
End StableSortFacts.

Lemma find_all_false {A : Type} (f : A -> bool) (l : list A) :
  (forall x, In x l -> f x = false) -> find f l = None.
Proof.
  induction l as [|x l IH]; intros H; simpl; [reflexivity|].
  rewrite (H x (or_introl eq_refl)). apply IH. intros y Hy. apply H. right. exact Hy.
Qed.

Lemma firstn_In {A : Type} (n : nat) (l : list A) (x : A) :
  In x (firstn n l) -> In x l.
Proof.
  revert l. induction n as [|n IH]; intros [|y l]; simpl; try tauto.
  intros [->|H]; [left; reflexivity | right; apply IH, H].
Qed.

(** ** The webhook *)

Module ServerFacts.
Import Server.

Lemma getTransactions_In (u : string) (limit : nat) (db : Database) (t : Transaction) :
  In t (getTransactions u limit db) -> In t (transactions db) /\ userId t = u.
Proof.
  unfold getTransactions. intros H.
  apply firstn_In, sort_desc_In, filter_In in H as [Hin Hu].
  split; [exact Hin | apply String.eqb_eq, Hu].
Qed.

Section Webhook.
Variable decimal_12_2 : string -> option string.
Context {Num : Type}.
Variable parseFloat : string -> Num.
Variable add : Num -> Num -> Num.
Variable numToString : Num -> string.

(** The lookup of the handler only sees the rows whose [userId] is the
    empty string. *)
Lemma squadWebhook_no_row_of_empty_user
    (transaction_reference transaction_status : option json) (now1 now2 : Z)
    (db : Database) :
  (forall t, In t (transactions db) -> userId t <> EmptyString) ->
  squadWebhook decimal_12_2 parseFloat add numToString
    transaction_reference transaction_status now1 now2 db = (processed, db).
Proof.
  intros Hne. unfold squadWebhook.
  rewrite find_all_false; [reflexivity|].
  intros t Ht. apply getTransactions_In in Ht as [Hin Hu].
  exfalso. exact (Hne t Hin Hu).
Qed.

(** C1: the transaction of user [user-1], debited by 500.00 and carrying
    the processor reference [SQD_REF_1], is neither marked [failed] nor
    refunded by the callback that reports its failure: the handler looks
    the reference up among the result of [getTransactions], the rows of the
    user whose id is the empty string, finds nothing and acknowledges. *)
Theorem failed_callback_leaves_wallet_and_status :
  let transaction :=
    {| id := "txn-1"; userId := "user-1"; type := "bank_transfer";
       amount := "500.00"; description := "Transfer to Ada";
       reference := "TXN_1700000000000_ab12cd34"; status := Some pending;
       squadReference := Some "SQD_REF_1"; createdAt := 1700000000000;
       updatedAt := 1700000000000 |} in
  let wallet :=
    {| w_id := "wallet-1"; w_userId := "user-1"; balance := Some "1500";
       ledgerBalance := Some "0.00"; w_updatedAt := 1700000000000 |} in
  let db := {| wallets := [wallet]; transactions := [transaction] |} in
  let out :=
    squadWebhook decimal_12_2 parseFloat add numToString
      (Some (JStr "SQD_REF_1")) (Some (JStr "failed"))
      1700000060000 1700000060001 db in
  code (fst out) = 200
  /\ transactions (snd out) = [transaction]
  /\ map status (transactions (snd out)) = [Some pending]
  /\ map balance (wallets (snd out)) = [Some "1500"].
Proof.
  intros transaction wallet db out. subst out.
  rewrite squadWebhook_no_row_of_empty_user.
  - repeat split.
  - intros t [<-|[]]. discriminate.
Qed.

(** C3: a callback whose [transaction_reference] matches the
    [squadReference] of no transaction changes neither the transactions
    nor the wallets and is answered with HTTP 200 and the generic
    acknowledgment. *)
Theorem unmatched_callback_is_ignored
    (transaction_reference transaction_status : option json) (now1 now2 : Z)
    (db : Database) :
  (forall t, In t (transactions db) ->
             strictEq (squadReference t) transaction_reference = false) ->
  let out :=
    squadWebhook decimal_12_2 parseFloat add numToString
      transaction_reference transaction_status now1 now2 db in
  snd out = db
  /\ code (fst out) = 200
  /\ content (fst out) = JObj [ ("message", JStr "Webhook processed") ].
Proof.
  intros Hno out. subst out. unfold squadWebhook.
  rewrite find_all_false; [repeat split|].
  intros t Ht. apply getTransactions_In in Ht as [Hin _]. apply Hno, Hin.
Qed.
End Webhook.

Lemma unmatched_callback_is_ignored_witness :
  let transaction :=
    {| id := "txn-1"; userId := EmptyString; type := "bank_transfer";
       amount := "500.00"; description := "Transfer to Ada";
       reference := "TXN_1"; status := Some pending;
       squadReference := Some "SQD_REF_1"; createdAt := 5; updatedAt := 5 |} in
  let db := {| wallets := []; transactions := [transaction] |} in
  let out :=
    squadWebhook (fun text : string => Some text) (fun _ : string => 0) Z.add toString
      (Some (JStr "SQD_REF_2")) (Some (JStr "failed")) 10 11 db in
  snd out = db
  /\ code (fst out) = 200
  /\ content (fst out) = JObj [ ("message", JStr "Webhook processed") ].
Proof.
  intros transaction db.
  apply (unmatched_callback_is_ignored (fun text : string => Some text)
           (fun _ : string => 0) Z.add toString
           (Some (JStr "SQD_REF_2")) (Some (JStr "failed")) 10 11 db).
  intros t [<-|[]]. reflexivity.
Defined.

End ServerFacts.

(** ** The object store *)

Lemma NoDup_map_filter {A B : Type} (g : A -> B) (f : A -> bool) (l : list A) :
  List.NoDup (map g l) -> List.NoDup (map g (List.filter f l)).
Proof.
  induction l as [|x l IH]; simpl; intros H; [constructor|].
  apply List.NoDup_cons_iff in H as [Hx Hl].
  destruct (f x); simpl; [|apply IH, Hl].
  apply List.NoDup_cons_iff. split; [|apply IH, Hl].
  intros Hin. apply Hx. apply in_map_iff in Hin as (y & E & Hy).
  apply in_map_iff. exists y. split; [exact E|]. apply filter_In in Hy. tauto.
Qed.

Section ObjectStoreFacts.
Context {V : Type} (keyOf : V -> string).

Lemma os_get_None (k : string) (st : list V) :
  os_get keyOf k st = None <-> ~ In k (os_keys keyOf st).
Proof.
  unfold os_get, os_keys. induction st as [|x st IH]; simpl; [tauto|].
  destruct (String.eqb_spec (keyOf x) k) as [E|E].
  - split; [discriminate | intros H; exfalso; apply H; left; exact E].
  - rewrite IH. tauto.
Qed.

Lemma os_insert_perm (v : V) (st : list V) : Permutation (os_insert keyOf v st) (v :: st).
Proof.
  induction st as [|x st IH]; simpl; [reflexivity|].
  destruct (String.ltb (keyOf v) (keyOf x)); [reflexivity|].
  rewrite IH. apply perm_swap.
Qed.

Lemma os_insert_In (v x : V) (st : list V) :
  In x (os_insert keyOf v st) <-> x = v \/ In x st.
Proof.
  split; intros H.
  - apply (Permutation_in _ (os_insert_perm v st)) in H. simpl in H.
    destruct H as [->|H]; [left; reflexivity | right; exact H].
  - apply (Permutation_in _ (Permutation_sym (os_insert_perm v st))).
    simpl. destruct H as [->|H]; [left; reflexivity | right; exact H].
Qed.

Lemma os_keys_insert_perm (v : V) (st : list V) :
  Permutation (os_keys keyOf (os_insert keyOf v st)) (keyOf v :: os_keys keyOf st).
Proof.
  unfold os_keys. change (keyOf v :: map keyOf st) with (map keyOf (v :: st)).
  apply Permutation_map, os_insert_perm.
Qed.

Lemma os_keys_delete_In (k x : string) (st : list V) :
  In x (os_keys keyOf (os_delete keyOf k st)) <-> In x (os_keys keyOf st) /\ x <> k.
Proof.
  unfold os_keys, os_delete. rewrite !in_map_iff. split.
  - intros (v & <- & Hv). apply filter_In in Hv as [Hin Hk].
    split; [exists v; tauto|].
    intros E. rewrite E, String.eqb_refl in Hk. discriminate.
  - intros [(v & <- & Hin) Hne]. exists v. split; [reflexivity|].
    apply filter_In. split; [exact Hin|].
    destruct (String.eqb_spec (keyOf v) k); [contradiction | reflexivity].
Qed.

Lemma os_delete_NoDup (k : string) (st : list V) :
  List.NoDup (os_keys keyOf st) -> List.NoDup (os_keys keyOf (os_delete keyOf k st)).
Proof. apply (NoDup_map_filter keyOf). Qed.

Lemma os_get_delete (k : string) (st : list V) :
  os_get keyOf k (os_delete keyOf k st) = None.
Proof.
  apply os_get_None. rewrite os_keys_delete_In. tauto.
Qed.

Lemma os_get_delete_None (k k' : string) (st : list V) :
  os_get keyOf k st = None -> os_get keyOf k (os_delete keyOf k' st) = None.
Proof.
  rewrite !os_get_None, os_keys_delete_In. tauto.
Qed.
End ObjectStoreFacts.

(** ** The offline storage *)

Module OfflineStorageFacts.
Import Queue OfflineStorage.

Lemma ensureInitialized_open (s : Storage) (st : list StoredTransaction) :
  indexedDB s = Some st -> ensureInitialized s = (Ok tt, opened st).
Proof.
  intros H. unfold ensureInitialized, initialize, opened.
  destruct s as [[|] db]; simpl in *; subst; reflexivity.
Qed.

Lemma ensureInitialized_closed (s : Storage) :
  indexedDB s = None ->
  ensureInitialized s = (Ok tt, s) /\ this_db s = None
  \/ ensureInitialized s = (Err "Failed to open IndexedDB", s).
Proof.
  intros H. unfold ensureInitialized, initialize, this_db.
  destruct s as [[|] db]; simpl in *; subst; [left|right]; auto.
Qed.

(** A method fails, and leaves the storage as it was, when the database
    cannot be opened. *)
Lemma closed_rejects {A : Type}
    (request : list StoredTransaction -> result A * list StoredTransaction)
    (s : Storage) :
  indexedDB s = None ->
  exists e, (ensureInitialized ;;; onStore request) s = (Err e, s).
Proof.
  intros H. unfold bind.
  destruct (ensureInitialized_closed s H) as [[-> Hdb]| ->].
  - unfold onStore. rewrite Hdb. eauto.
  - eauto.
Qed.

Lemma open_runs {A : Type}
    (request : list StoredTransaction -> result A * list StoredTransaction)
    (s : Storage) (st : list StoredTransaction) :
  indexedDB s = Some st ->
  (ensureInitialized ;;; onStore request) s
  = (fst (request st), opened (snd (request st))).
Proof.
  intros H. unfold bind. rewrite (ensureInitialized_open s st H).
  unfold onStore, opened. simpl. destruct (request st); reflexivity.
Qed.

Lemma add_fresh (u : string) (t : OfflineTransaction) (s : Storage)
    (st : list StoredTransaction) :
  indexedDB s = Some st -> os_get keyPath (id t) st = None ->
  addOfflineTransaction u t s
  = (Ok tt, opened (os_insert keyPath {| userId := u; transaction := t |} st)).
Proof.
  intros H Hget. unfold addOfflineTransaction. rewrite (open_runs _ s st H).
  unfold os_add.
  change (keyPath {| userId := u; transaction := t |}) with (id t).
  rewrite Hget. reflexivity.
Qed.

Lemma add_taken (u : string) (t : OfflineTransaction) (s : Storage)
    (st : list StoredTransaction) (r : StoredTransaction) :
  indexedDB s = Some st -> os_get keyPath (id t) st = Some r ->
  addOfflineTransaction u t s = (Err "Failed to add offline transaction", opened st).
Proof.
  intros H Hget. unfold addOfflineTransaction. rewrite (open_runs _ s st H).
  unfold os_add.
  change (keyPath {| userId := u; transaction := t |}) with (id t).
  rewrite Hget. reflexivity.
Qed.

(** When [addOfflineTransaction] resolves, the store was open and held no
    record with that id. *)
Lemma add_Ok_inv (u : string) (t : OfflineTransaction) (s : Storage) :
  fst (addOfflineTransaction u t s) = Ok tt ->
  exists st, indexedDB s = Some st /\ os_get keyPath (id t) st = None.
Proof.
  intros H. destruct (indexedDB s) as [st|] eqn:Hdb.
  - exists st. split; [reflexivity|].
    destruct (os_get keyPath (id t) st) as [r|] eqn:Hget; [|reflexivity].
    rewrite (add_taken u t s st r Hdb Hget) in H. discriminate.
  - destruct (closed_rejects
                (fun st =>
                   match os_add keyPath {| userId := u; transaction := t |} st with
                   | Some st' => (Ok tt, st')
                   | None => (Err "Failed to add offline transaction", st)
                   end) s Hdb) as [e He].
    unfold addOfflineTransaction in H. rewrite He in H. discriminate.
Qed.

Lemma remove_open (i : string) (s : Storage) (st : list StoredTransaction) :
  indexedDB s = Some st ->
  removeOfflineTransaction i s = (Ok tt, opened (os_delete keyPath i st)).
Proof.
  intros H. unfold removeOfflineTransaction. rewrite (open_runs _ s st H). reflexivity.
Qed.

Lemma remove_closed (i : string) (s : Storage) :
  indexedDB s = None -> exists e, removeOfflineTransaction i s = (Err e, s).
Proof. apply closed_rejects. Qed.

Lemma get_open (u : string) (s : Storage) (st : list StoredTransaction) :
  indexedDB s = Some st ->
  getOfflineTransactions u s
  = (Ok (sort_desc timestamp (map transaction (index_getAll u st))), opened st).
Proof.
  intros H. unfold getOfflineTransactions. rewrite (open_runs _ s st H). reflexivity.
Qed.

(** C6, as the code has it: when the store can be opened,
    [getOfflineTransactions] resolves with exactly the records of that
    user, newest first; when it cannot be opened the promise rejects, it
    does not resolve with the empty list.  The error is that of the open
    request, [Failed to open IndexedDB]; the error of the guard on
    [this.db], [Database not initialized], takes its place only for an
    object that is marked initialized and has no database, which
    [initialize] never produces. *)
Theorem list_newest_first_or_rejects (u : string) (s : Storage) :
  match indexedDB s with
  | Some st =>
      exists l,
        fst (getOfflineTransactions u s) = Ok l
        /\ Permutation l
             (map transaction (List.filter (fun r => String.eqb (userId r) u) st))
        /\ desc_sorted timestamp l
  | None =>
      getOfflineTransactions u s
      = (Err (if isInitialized s then "Database not initialized"
              else "Failed to open IndexedDB"), s)
  end.
Proof.
  destruct (indexedDB s) as [st|] eqn:H.
  - rewrite (get_open u s st H). eexists. split; [reflexivity|]. split.
    + apply sort_desc_perm.
    + apply sort_desc_sorted.
  - unfold getOfflineTransactions, bind, ensureInitialized, initialize, onStore, this_db.
    destruct s as [[|] db]; simpl in *; subst db; reflexivity.
Qed.

(** C6, as the claim states it, fails: with a database that cannot be
    opened, the list operation rejects with [Failed to open IndexedDB]. *)
Lemma list_rejects_when_store_cannot_open :
  let s := {| isInitialized := false; indexedDB := None |} in
  getOfflineTransactions "user-1" s = (Err "Failed to open IndexedDB", s)
  /\ fst (getOfflineTransactions "user-1" s) <> Ok [].
Proof.
  split; [reflexivity | discriminate].
Qed.

(** C10: adding a record whose id is already in the store rejects with
    [Failed to add offline transaction] and leaves the store, and so the
    record that was there, as it was. *)
Theorem add_existing_id_rejects (u : string) (t : OfflineTransaction) (s : Storage)
    (st : list StoredTransaction) (r : StoredTransaction) :
  indexedDB s = Some st ->
  os_get keyPath (id t) st = Some r ->
  let out := addOfflineTransaction u t s in
  fst out = Err "Failed to add offline transaction"
  /\ indexedDB (snd out) = Some st
  /\ (exists st', indexedDB (snd out) = Some st'
                  /\ os_get keyPath (id t) st' = Some r).
Proof.
  intros H Hget out. subst out. rewrite (add_taken u t s st r H Hget).
  simpl. repeat split. exists st. split; [reflexivity | exact Hget].
Qed.

Lemma add_existing_id_rejects_witness :
  let old :=
    {| id := "offline_1_a"; type := airtime; amount := "100"; description := "Airtime";
       recipientDetails := JObj [ ("phone", JStr "08012345678") ]; metadata := None;
       timestamp := 1; status := queued |} in
  let new :=
    {| id := "offline_1_a"; type := data; amount := "999"; description := "Data";
       recipientDetails := JNull; metadata := None; timestamp := 2; status := queued |} in
  let r := {| userId := "user-1"; transaction := old |} in
  let s := {| isInitialized := false; indexedDB := Some [r] |} in
  let out := addOfflineTransaction "user-2" new s in
  fst out = Err "Failed to add offline transaction"
  /\ indexedDB (snd out) = Some [r]
  /\ (exists st', indexedDB (snd out) = Some st'
                  /\ os_get keyPath (id new) st' = Some r).
Proof.
  intros old new r s.
  apply (add_existing_id_rejects "user-2" new s [r] r); reflexivity.
Defined.

End OfflineStorageFacts.

(** ** The offline queue hook *)

Module OfflineQueueFacts.
Import Queue OfflineStorage OfflineQueue QueueSpec OfflineStorageFacts.

(** *** The two state updates of the hook *)


Lemma markStatus_notin (i : string) (s : Status) (q : list OfflineTransaction) :
  ~ In i (map id q) -> markStatus i s q = q.
Proof.
  induction q as [|t q IH]; simpl; intros H; [reflexivity|].
  destruct (String.eqb_spec (id t) i) as [E|_]; [exfalso; apply H; left; exact E|].
  f_equal. apply IH. intros Hin. apply H. right. exact Hin.
Qed.

Lemma dropId_notin (i : string) (q : list OfflineTransaction) :
  ~ In i (map id q) -> dropId i q = q.
Proof.
  induction q as [|t q IH]; simpl; intros H; [reflexivity|].
  destruct (String.eqb_spec (id t) i) as [E|_]; [exfalso; apply H; left; exact E|].
  simpl. f_equal. apply IH. intros Hin. apply H. right. exact Hin.
Qed.

Lemma markStatus_middle (s : Status) (x : OfflineTransaction)
    (done rest : list OfflineTransaction) :
  ~ In (id x) (map id done) -> ~ In (id x) (map id rest) ->
  markStatus (id x) s (done ++ x :: rest) = (done ++ withStatus s x :: rest)%list.
Proof.
  intros Hd Hr. unfold markStatus. rewrite List.map_app. simpl.
  rewrite String.eqb_refl.
  fold (markStatus (id x) s done). fold (markStatus (id x) s rest).
  rewrite (markStatus_notin _ _ _ Hd), (markStatus_notin _ _ _ Hr). reflexivity.
Qed.

Lemma dropId_middle (x : OfflineTransaction) (done rest : list OfflineTransaction) :
  ~ In (id x) (map id done) -> ~ In (id x) (map id rest) ->
  dropId (id x) (done ++ x :: rest) = (done ++ rest)%list.
Proof.
  intros Hd Hr. unfold dropId. rewrite List.filter_app. simpl.
  rewrite String.eqb_refl. simpl.
  fold (dropId (id x) done). fold (dropId (id x) rest).
  rewrite (dropId_notin _ _ Hd), (dropId_notin _ _ Hr). reflexivity.
Qed.

Lemma NoDup_middle (x : OfflineTransaction) (done rest : list OfflineTransaction) :
  List.NoDup (map id (done ++ x :: rest)) ->
  ~ In (id x) (map id done) /\ ~ In (id x) (map id rest).
Proof.
  rewrite List.map_app. simpl. intros H. apply List.NoDup_remove_2 in H.
  rewrite List.in_app_iff in H. tauto.
Qed.

(** *** One pass of the drain *)

Lemma map_fst_outcomes (net : nat -> FetchOutcome) (k : nat) (q : list OfflineTransaction) :
  map fst (outcomes net k q) = q.
Proof.
  revert k. induction q as [|t q IH]; intros k; simpl; [reflexivity|].
  destruct (Status_eqb (status t) queued); simpl; rewrite IH; reflexivity.
Qed.

Lemma submitted_outcomes (net : nat -> FetchOutcome) (k : nat) (q : list OfflineTransaction) :
  submitted (outcomes net k q)
  = List.filter (fun t => Status_eqb (status t) queued) q.
Proof.
  revert k. induction q as [|t q IH]; intros k; simpl; [reflexivity|].
  destruct (Status_eqb (status t) queued); simpl; rewrite IH; reflexivity.
Qed.

(** The loop body, on a record that is in the queue under a unique id
    while the store is open. *)
Lemma processOne_settles (u : string) (t : OfflineTransaction) (o : FetchOutcome)
    (w : World) (done rest : list OfflineTransaction) (st : list StoredTransaction) :
  queuedTransactions w = (done ++ t :: rest)%list ->
  List.NoDup (map id (done ++ t :: rest)) ->
  indexedDB (storage w) = Some st ->
  let w' := processOne u t o w in
  queuedTransactions w' = (done ++ settleOne (t, Some o) ++ rest)%list
  /\ requests w' = fetchCallOf t :: requests w
  /\ indexedDB (storage w')
     = Some (match o with HttpOk => os_delete keyPath (id t) st | _ => st end)
  /\ isOnline w' = isOnline w.
Proof.
  intros Hq Hnd Hdb. destruct (NoDup_middle t done rest Hnd) as [Hd Hr].
  assert (Hfail : markStatus (id t) failed (markStatus (id t) processing (done ++ t :: rest))
                  = (done ++ withStatus failed t :: rest)%list).
  { rewrite (markStatus_middle _ _ _ _ Hd Hr).
    apply (markStatus_middle failed (withStatus processing t)); assumption. }
  unfold processOne. destruct o; simpl.
  - unfold removeFromOfflineQueue. rewrite (remove_open (id t) _ st Hdb). simpl.
    rewrite Hq, (markStatus_middle _ _ _ _ Hd Hr).
    repeat split. apply (dropId_middle (withStatus processing t) done rest Hd Hr).
  - rewrite Hq, Hfail. auto.
  - rewrite Hq, Hfail. auto.
Qed.

Lemma drainLoop_settles (u : string) (net : nat -> FetchOutcome)
    (ts : list OfflineTransaction) :
  forall (k : nat) (w : World) (done : list OfflineTransaction)
         (st : list StoredTransaction),
    queuedTransactions w = (done ++ ts)%list ->
    List.NoDup (map id (done ++ ts)) ->
    indexedDB (storage w) = Some st ->
    let w' := drainLoop u net ts k w in
    queuedTransactions w' = (done ++ flat_map settleOne (outcomes net k ts))%list
    /\ requests w'
       = (rev (map fetchCallOf (submitted (outcomes net k ts))) ++ requests w)%list
    /\ indexedDB (storage w') = Some (purge (succeeded (outcomes net k ts)) st)
    /\ isOnline w' = isOnline w.
Proof.
  induction ts as [|t rest IH]; intros k w done st Hq Hnd Hdb; simpl.
  - rewrite Hq. auto.
  - destruct (Status_eqb (status t) queued) eqn:Hs.
    + destruct (processOne_settles u t (net k) w done rest st Hq Hnd Hdb)
        as (P1 & P2 & P3 & P4).
      assert (Hnd' : List.NoDup (map id ((done ++ settleOne (t, Some (net k))) ++ rest))).
      { destruct (net k); simpl.
        - rewrite List.app_nil_r. rewrite List.map_app in Hnd |- *. simpl in Hnd.
          apply List.NoDup_remove_1 in Hnd. exact Hnd.
        - rewrite <- List.app_assoc. simpl. rewrite List.map_app in Hnd |- *. exact Hnd.
        - rewrite <- List.app_assoc. simpl. rewrite List.map_app in Hnd |- *. exact Hnd. }
      edestruct (IH (S k) (processOne u t (net k) w)
                   (done ++ settleOne (t, Some (net k)))%list
                   (match net k with
                    | HttpOk => os_delete keyPath (id t) st
                    | _ => st
                    end))
        as (H1 & H2 & H3 & H4);
        [rewrite <- List.app_assoc; exact P1 | exact Hnd' | exact P3 |].
      rewrite H1, H2, H3, H4, P2, P4. simpl.
      rewrite <- !List.app_assoc. repeat split.
      destruct (net k); reflexivity.
    + edestruct (IH k w (done ++ [t])%list st) as (H1 & H2 & H3 & H4).
      { rewrite <- List.app_assoc. exact Hq. }
      { rewrite <- List.app_assoc. exact Hnd. }
      { exact Hdb. }
      rewrite H1, H2, H3, H4. simpl. rewrite <- List.app_assoc. auto.
Qed.

Lemma NoDup_map_inj_In {A B : Type} (g : A -> B) (l : list A) (a b : A) :
  List.NoDup (map g l) -> In a l -> In b l -> g a = g b -> a = b.
Proof.
  induction l as [|x l IH]; simpl; intros Hnd Ha Hb E; [contradiction|].
  apply List.NoDup_cons_iff in Hnd as [Hx Hl].
  destruct Ha as [->|Ha], Hb as [->|Hb]; auto.
  - exfalso. apply Hx. rewrite E. apply in_map, Hb.
  - exfalso. apply Hx. rewrite <- E. apply in_map, Ha.
Qed.

Lemma purge_keeps_None (i : string) (ids : list string) (st : list StoredTransaction) :
  os_get keyPath i st = None -> os_get keyPath i (purge ids st) = None.
Proof.
  revert st. induction ids as [|j ids IH]; intros st H; simpl; [exact H|].
  apply IH, os_get_delete_None, H.
Qed.

Lemma purge_deletes (i : string) (ids : list string) (st : list StoredTransaction) :
  In i ids -> os_get keyPath i (purge ids st) = None.
Proof.
  revert st. induction ids as [|j ids IH]; intros st H; simpl; [contradiction|].
  destruct H as [->|H]; [|apply IH, H].
  apply purge_keeps_None, os_get_delete.
Qed.

Lemma settled_from (rs : list (OfflineTransaction * option FetchOutcome))
    (x : OfflineTransaction) :
  In x (flat_map settleOne rs) ->
  exists t o, In (t, o) rs /\ o <> Some HttpOk /\ id x = id t.
Proof.
  intros H. apply in_flat_map in H as ([t o] & Hin & Hx).
  exists t, o. split; [exact Hin|].
  destruct o as [[| |]|]; simpl in Hx; try contradiction;
    destruct Hx as [<-|[]]; split; try discriminate; reflexivity.
Qed.

(** C7, as the code has it: a drain pass started from the current render,
    online, with the store open and ids unique, submits every record in
    state [queued] once, in the order of the in-memory list; what becomes
    of a record depends on the outcome of its own submission only: it is
    deleted from the queue and from the store when the submission
    succeeds, marked [failed] otherwise, and the records that follow are
    submitted all the same. *)
Theorem drain_pass_settles_each_record (u : string) (net : nat -> FetchOutcome)
    (w : World) (st : list StoredTransaction) :
  isOnline w = true ->
  isProcessing w = false ->
  queuedTransactions w <> [] ->
  List.NoDup (map id (queuedTransactions w)) ->
  indexedDB (storage w) = Some st ->
  let q := queuedTransactions w in
  let rs := outcomes net 0 q in
  let w' := processQueuedTransactions (render (Some u) w) net w in
  rev (requests w')
  = (rev (requests w)
     ++ map fetchCallOf (List.filter (fun t => Status_eqb (status t) queued) q))%list
  /\ queuedTransactions w' = flat_map settleOne rs
  /\ indexedDB (storage w') = Some (purge (succeeded rs) st)
  /\ (forall t, In (t, Some HttpOk) rs ->
        ~ In (id t) (map id (queuedTransactions w'))
        /\ os_get keyPath (id t) (purge (succeeded rs) st) = None)
  /\ (forall t o, In (t, Some o) rs -> o <> HttpOk ->
        In (withStatus failed t) (queuedTransactions w')).
Proof.
  intros Hon Hproc Hne Hnd Hdb.
  assert (Hrun : processQueuedTransactions (render (Some u) w) net w
                 = setIsProcessing false
                     (drainLoop u net (queuedTransactions w) 0 (setIsProcessing true w))).
  { unfold processQueuedTransactions, render. simpl.
    rewrite Hon, Hproc. simpl.
    destruct (queuedTransactions w); [congruence | reflexivity]. }
  intros q rs w'.
  assert (Hw' : w' = setIsProcessing false
                       (drainLoop u net q 0 (setIsProcessing true w)))
    by exact Hrun.
  clearbody w'. clear Hrun.
  destruct (drainLoop_settles u net q 0 (setIsProcessing true w) [] st)
    as (H1 & H2 & H3 & _); [reflexivity | exact Hnd | exact Hdb |].
  simpl in H1, H2, H3. fold rs in H1, H2, H3.
  assert (Hq' : queuedTransactions w' = flat_map settleOne rs)
    by (rewrite Hw'; exact H1).
  split; [|split; [|split; [|split]]].
  - rewrite Hw'. simpl. rewrite H2, List.rev_app_distr, rev_involutive.
    unfold rs. rewrite submitted_outcomes. reflexivity.
  - exact Hq'.
  - rewrite Hw'. exact H3.
  - intros t Ht. split.
    + rewrite Hq'. intros Hin. apply List.in_map_iff in Hin as (x & Ex & Hx).
      apply settled_from in Hx as (t' & o & Hin' & Ho & Ex').
      assert (E : (t', o) = (t, Some HttpOk)).
      { apply (NoDup_map_inj_In (fun r => id (fst r)) rs); auto.
        - rewrite <- (List.map_map fst id). unfold rs. rewrite map_fst_outcomes. exact Hnd.
        - simpl. congruence. }
      inversion E. subst o. apply Ho. reflexivity.
    + apply purge_deletes. unfold succeeded. apply in_flat_map.
      exists (t, Some HttpOk). split; [exact Ht | left; reflexivity].
  - intros t o Ht Ho. rewrite Hq'. apply in_flat_map.
    exists (t, Some o). split; [exact Ht|].
    destruct o; [contradiction | left; reflexivity | left; reflexivity].
Qed.

Lemma drain_pass_settles_each_record_witness :
  let a := {| id := "offline_1_a"; type := bank_transfer; amount := "5000";
              description := "Rent";
              recipientDetails := JObj [ ("bankCode", JStr "058");
                                         ("accountNumber", JStr "0123456789") ];
              metadata := None; timestamp := 1; status := queued |} in
  let b := {| id := "offline_2_b"; type := wallet_transfer; amount := "200";
              description := "Lunch";
              recipientDetails := JObj [ ("recipientPhone", JStr "08012345678") ];
              metadata := None; timestamp := 2; status := queued |} in
  let c := {| id := "offline_3_c"; type := airtime; amount := "100";
              description := "Airtime";
              recipientDetails := JObj [ ("phone", JStr "08012345678") ];
              metadata := Some (JObj [ ("network", JStr "MTN") ]);
              timestamp := 3; status := queued |} in
  let st := [ {| userId := "user-1"; transaction := a |};
              {| userId := "user-1"; transaction := b |};
              {| userId := "user-1"; transaction := c |} ] in
  let w := {| isOnline := true; isProcessing := false; queuedTransactions := [a; b; c];
              storage := opened st; requests := []; queueLog := [] |} in
  let net := fun k : nat => match k with 1%nat => HttpError | _ => HttpOk end in
  let w' := processQueuedTransactions (render (Some "user-1") w) net w in
  rev (requests w') = [fetchCallOf a; fetchCallOf b; fetchCallOf c]
  /\ queuedTransactions w' = [withStatus failed b]
  /\ indexedDB (storage w') = Some [ {| userId := "user-1"; transaction := b |} ].
Proof.
  intros a b c st w net w'.
  destruct (drain_pass_settles_each_record "user-1" net w st)
    as (H1 & H2 & H3 & _).
  - reflexivity.
  - reflexivity.
  - discriminate.
  - simpl. repeat constructor; simpl; intuition discriminate.
  - reflexivity.
  - fold w' in H1, H2, H3. rewrite H1, H2, H3. repeat split.
Defined.

(** C7, as the claim states it, fails: two records are enqueued, the first
    at time 1 and the second at time 2; the page is reloaded and the queue
    loaded from the store; the drain then submits the record enqueued last
    first. *)
Lemma drain_after_reload_submits_newest_first :
  let ta := {| n_type := bank_transfer; n_amount := "5000"; n_description := "Rent";
               n_recipientDetails := JObj [ ("bankCode", JStr "058");
                                            ("accountNumber", JStr "0123456789") ];
               n_metadata := None |} in
  let tb := {| n_type := wallet_transfer; n_amount := "200"; n_description := "Lunch";
               n_recipientDetails := JObj [ ("recipientPhone", JStr "08012345678") ];
               n_metadata := None |} in
  let user := Some "user-1" in
  let offline := {| isOnline := false; isProcessing := false; queuedTransactions := [];
                    storage := {| isInitialized := false; indexedDB := Some [] |};
                    requests := []; queueLog := [] |} in
  let enqueued :=
    addTransactionToQueue user tb 2 "b" 2 (addTransactionToQueue user ta 1 "a" 1 offline) in
  let reloaded := {| isOnline := true; isProcessing := false; queuedTransactions := [];
                     storage := {| isInitialized := false;
                                   indexedDB := indexedDB (storage enqueued) |};
                     requests := []; queueLog := [] |} in
  let loaded := loadQueuedTransactions user reloaded in
  let drained := processQueuedTransactions (render user loaded) (fun _ => HttpOk) loaded in
  let a := newQueuedTransaction ta 1 "a" 1 in
  let b := newQueuedTransaction tb 2 "b" 2 in
  queuedTransactions enqueued = [a; b]
  /\ queuedTransactions loaded = [b; a]
  /\ rev (requests drained) = [fetchCallOf b; fetchCallOf a]
  /\ rev (requests drained) <> [fetchCallOf a; fetchCallOf b].
Proof.
  intros ta tb user offline enqueued reloaded loaded drained a b.
  split; [reflexivity|]. split; [reflexivity|]. split; [reflexivity|].
  vm_compute. intros H. discriminate H.
Qed.

(** *** Enqueue, then list *)

(** C8, as the code has it: when the store can be opened and holds no
    record under the id generated for the record,
    [offline_<Date.now()>_<random suffix>], [addTransactionToQueue] stores
    it, and listing the queue of that user yields a list that contains a
    record with the kind, amount and recipient details given, under that
    id and [queued]; the in-memory queue holds that record too. *)
Theorem enqueue_then_list (u : string) (t : NewTransaction)
    (now1 : Z) (rnd : string) (now2 : Z) (w : World) (st : list StoredTransaction) :
  indexedDB (storage w) = Some st ->
  os_get keyPath ("offline_" ++ toString now1 ++ "_" ++ rnd) st = None ->
  let w' := addTransactionToQueue (Some u) t now1 rnd now2 w in
  exists l r,
    fst (getOfflineQueue u (storage w')) = Ok l
    /\ In r l
    /\ type r = n_type t
    /\ amount r = n_amount t
    /\ recipientDetails r = n_recipientDetails t
    /\ id r = "offline_" ++ toString now1 ++ "_" ++ rnd
    /\ status r = queued
    /\ In r (queuedTransactions w').
Proof.
  intros Hdb Hfresh w'.
  set (q := newQueuedTransaction t now1 rnd now2) in *.
  change ("offline_" ++ toString now1 ++ "_" ++ rnd) with (id q) in Hfresh |- *.
  assert (Hw' : w' = setQueuedTransactions (fun prev => prev ++ [q])%list
                       (setStorage
                          (opened (os_insert keyPath {| userId := u; transaction := q |} st))
                          w)).
  { subst w'. unfold addTransactionToQueue, addToOfflineQueue. fold q.
    rewrite (add_fresh u q (storage w) st Hdb Hfresh). reflexivity. }
  exists (sort_desc timestamp
            (map transaction
               (index_getAll u (os_insert keyPath {| userId := u; transaction := q |} st)))),
         q.
  split; [|split; [|repeat split]].
  - rewrite Hw'. reflexivity.
  - apply sort_desc_In.
    apply (in_map transaction _ {| userId := u; transaction := q |}).
    apply List.filter_In. split.
    + apply os_insert_In. left. reflexivity.
    + simpl. apply String.eqb_refl.
  - rewrite Hw'. simpl. apply List.in_app_iff. right. left. reflexivity.
Qed.

Lemma enqueue_then_list_witness :
  let t := {| n_type := airtime; n_amount := "100"; n_description := "Airtime";
              n_recipientDetails := JObj [ ("phone", JStr "08012345678") ];
              n_metadata := None |} in
  let other :=
    {| id := "offline_1600000000000_zzzzzzzzz"; type := data; amount := "500";
       description := "Data"; recipientDetails := JNull; metadata := None;
       timestamp := 1600000000000; status := queued |} in
  let st := [ {| userId := "user-1"; transaction := other |} ] in
  let w := {| isOnline := false; isProcessing := false; queuedTransactions := [other];
              storage := {| isInitialized := false; indexedDB := Some st |};
              requests := []; queueLog := [] |} in
  let w' := addTransactionToQueue (Some "user-1") t 1700000000000 "k3j9x0a1b"
              1700000000001 w in
  exists l r,
    fst (getOfflineQueue "user-1" (storage w')) = Ok l
    /\ In r l
    /\ type r = n_type t
    /\ amount r = n_amount t
    /\ recipientDetails r = n_recipientDetails t
    /\ id r = "offline_" ++ toString 1700000000000 ++ "_" ++ "k3j9x0a1b"
    /\ status r = queued
    /\ In r (queuedTransactions w').
Proof.
  intros t other st w.
  apply (enqueue_then_list "user-1" t 1700000000000 "k3j9x0a1b" 1700000000001 w st).
  - reflexivity.
  - reflexivity.
Defined.

(** C8, as the claim states it, fails.  With a store that cannot be
    opened the record is not stored and the list operation rejects.  With
    a store that holds a record under the id that is generated (the same
    millisecond and the same random suffix), [store.add] rejects: the list
    resolves and holds no record with the amount given, and the in-memory
    queue is as it was. *)
Lemma enqueue_without_store_or_fresh_id_is_lost :
  let t := {| n_type := data; n_amount := "999"; n_description := "Data";
              n_recipientDetails := JObj [ ("phone", JStr "08012345678") ];
              n_metadata := None |} in
  let closed := {| isOnline := false; isProcessing := false; queuedTransactions := [];
                   storage := {| isInitialized := false; indexedDB := None |};
                   requests := []; queueLog := [] |} in
  let old := {| id := "offline_1700000000000_k3j9x0a1b"; type := airtime;
                amount := "100"; description := "Airtime"; recipientDetails := JNull;
                metadata := None; timestamp := 1700000000000; status := queued |} in
  let taken := {| isOnline := false; isProcessing := false; queuedTransactions := [old];
                  storage := opened [ {| userId := "user-1"; transaction := old |} ];
                  requests := []; queueLog := [] |} in
  let w1 := addTransactionToQueue (Some "user-1") t 1700000000000 "k3j9x0a1b"
              1700000000001 closed in
  let w2 := addTransactionToQueue (Some "user-1") t 1700000000000 "k3j9x0a1b"
              1700000000001 taken in
  fst (getOfflineQueue "user-1" (storage w1)) = Err "Failed to open IndexedDB"
  /\ queuedTransactions w1 = []
  /\ fst (getOfflineQueue "user-1" (storage w2)) = Ok [old]
  /\ queuedTransactions w2 = [old]
  /\ amount old <> n_amount t.
Proof.
  intros t closed old taken w1 w2.
  split; [reflexivity|]. split; [reflexivity|]. split; [reflexivity|].
  split; [reflexivity | discriminate].
Qed.

(** *** Status transitions *)

Lemma Status_eqb_eq (a b : Status) : Status_eqb a b = true <-> a = b.
Proof. destruct a, b; simpl; split; intros H; try reflexivity; discriminate. Qed.

Lemma status_of_markStatus_eq (i : string) (s : Status) (q : list OfflineTransaction) :
  status_of i (markStatus i s q) = option_map (fun _ => s) (status_of i q).
Proof.
  unfold status_of, markStatus. induction q as [|t q IH]; simpl; [reflexivity|].
  destruct (String.eqb (id t) i) eqn:E; simpl; rewrite E; [reflexivity | exact IH].
Qed.

Lemma status_of_markStatus_ne (i j : string) (s : Status) (q : list OfflineTransaction) :
  j <> i -> status_of j (markStatus i s q) = status_of j q.
Proof.
  intros Hne. unfold status_of, markStatus. induction q as [|t q IH]; simpl; [reflexivity|].
  destruct (String.eqb_spec (id t) i) as [E|E]; simpl.
  - destruct (String.eqb_spec (id t) j) as [E'|_]; [congruence | exact IH].
  - destruct (String.eqb (id t) j); [reflexivity | exact IH].
Qed.


Lemma status_of_dropId_ne (i j : string) (q : list OfflineTransaction) :
  j <> i -> status_of j (dropId i q) = status_of j q.
Proof.
  intros Hne. unfold status_of, dropId. induction q as [|t q IH]; simpl; [reflexivity|].
  destruct (String.eqb_spec (id t) i) as [E|E]; simpl.
  - destruct (String.eqb_spec (id t) j) as [E'|_]; [congruence | exact IH].
  - destruct (String.eqb (id t) j); [reflexivity | exact IH].
Qed.


Lemma status_of_In (q : list OfflineTransaction) (t : OfflineTransaction) :
  List.NoDup (map id q) -> In t q -> status_of (id t) q = Some (status t).
Proof.
  unfold status_of. induction q as [|x q IH]; simpl; intros Hnd Hin; [contradiction|].
  apply List.NoDup_cons_iff in Hnd as [Hx Hq].
  destruct Hin as [->|Hin].
  - rewrite String.eqb_refl. reflexivity.
  - destruct (String.eqb_spec (id x) (id t)) as [E|_]; [|apply IH; assumption].
    exfalso. apply Hx. rewrite E. apply in_map, Hin.
Qed.







(** *** Histories of the queue state *)

Section Evolves.
Variable R : string -> option Status -> option Status -> Prop.




End Evolves.

(** *** Unique ids *)








(** *** The four operations *)













End OfflineQueueFacts.

(** * Further properties of the code *)

(** ** Decimal representations *)

Lemma pretty_N_go_length (x : N) (s : string) :
  (String.length s <= String.length (pretty_N_go x s))%nat.
Proof.
  revert s. induction (N.lt_wf_0 x) as [x _ IH]; intros s.
  destruct (N.eq_dec x 0%N) as [->|Hx].
  - rewrite pretty_N_go_0. lia.
  - rewrite pretty_N_go_step by lia.
    etransitivity; [|apply IH, N.div_lt; lia]. simpl. lia.
Qed.

Lemma toString_nonempty (n : Z) : toString n <> EmptyString.
Proof.
  unfold toString, pretty, pretty_Z. destruct n as [|p|p]; try discriminate.
  unfold pretty, pretty_positive, pretty, pretty_N.
  destruct (decide (N.pos p = 0%N)) as [E|_]; [discriminate|].
  intros E.
  assert (H : (1 <= String.length (pretty_N_go (N.pos p) EmptyString))%nat).
  { rewrite pretty_N_go_step by lia. etransitivity; [|apply pretty_N_go_length].
    simpl. lia. }
  rewrite E in H. simpl in H. lia.
Qed.

(** ** The service worker, continued *)

Module ServiceWorkerMore.
Import ServiceWorker ServiceWorkerFacts.

(** X1: whatever the request and whatever the network does,
    [handleAPIRequest] leaves the offline queue and the API cache as they
    were, and answers with the response of the network or, when there is
    none, with the 503 response: the branch that stores the request is never
    taken. *)
Theorem handleAPIRequest_never_stores
    (request : Request) (net : option Response) (now1 now2 : Z) (rnd : string)
    (w : World) :
  let out := handleAPIRequest request net now1 now2 rnd w in
  offlineQueue (snd out) = offlineQueue w
  /\ apiCache (snd out) = apiCache w
  /\ fst out = Ok (match net with Some r => r | None => networkUnavailable end).
Proof.
  destruct net as [r|].
  - repeat split.
  - intros out. subst out. rewrite handleAPIRequest_offline. repeat split.
Qed.

Section Get.
Variable parseInt : string -> option Z.

Lemma freshEntry_Some (now : Z) (o : option Response) (c : Response) :
  freshEntry parseInt now o = Some c -> o = Some c.
Proof.
  unfold freshEntry. destruct o as [c'|]; [|discriminate].
  destruct (headers c' !! "sw-cache-date") as [d|]; [|discriminate].
  destruct (String.eqb d EmptyString); [discriminate|].
  destruct (parseInt d) as [t|]; [|discriminate].
  destruct (now - t <? 5 * 60 * 1000); [|discriminate].
  intros E. exact E.
Qed.

Lemma freshEntry_dated (now t : Z) (c : Response) (d : string) :
  headers c !! "sw-cache-date" = Some d -> d <> EmptyString -> parseInt d = Some t ->
  freshEntry parseInt now (Some c) = if now - t <? 5 * 60 * 1000 then Some c else None.
Proof.
  intros Hd Hne Hp. unfold freshEntry. rewrite Hd.
  destruct (String.eqb_spec d EmptyString) as [E|_]; [contradiction|].
  rewrite Hp. reflexivity.
Qed.

(** X2: when the network answers a GET on a cacheable endpoint with an ok
    response and no fresh entry is cached, that response is returned and
    stored; the next request for the same URL within five minutes is served
    the same status and body from the cache, without a fetch. *)
Theorem network_response_primes_cache
    (request : Request) (r : Response) (net' : option Response)
    (now1 now2 now3 now4 : Z) (w : World) :
  isCacheable (pathname request) = true ->
  freshEntry parseInt now1 (apiCache w !! url request) = None ->
  ok r = true ->
  parseInt (toString now2) = Some now2 ->
  now3 - now2 < 5 * 60 * 1000 ->
  let first := handleAPIGet parseInt request (Some r) now1 now2 w in
  let second := handleAPIGet parseInt request net' now3 now4 (snd first) in
  fst first = r
  /\ fetched (snd first) = url request :: fetched w
  /\ status (fst second) = status r
  /\ body (fst second) = body r
  /\ snd second = snd first.
Proof.
  intros Hc Hstale Hok Hparse Hage.
  assert (H1 : handleAPIGet parseInt request (Some r) now1 now2 w
               = (r, cachePut (url request)
                       {| status := status r;
                          headers := <["sw-cache-date" := toString now2]> (headers r);
                          body := body r |}
                       (logFetch (url request) w))).
  { unfold handleAPIGet. rewrite Hc. simpl. rewrite Hstale, Hok. reflexivity. }
  intros first second. subst second first. rewrite H1. simpl.
  unfold handleAPIGet. rewrite Hc. simpl. rewrite lookup_insert_eq.
  rewrite (freshEntry_dated now3 now2 _ (toString now2));
    [|apply lookup_insert_eq | apply toString_nonempty | exact Hparse].
  destruct (Z.ltb_spec (now3 - now2) (5 * 60 * 1000)) as [_|Hge]; [|lia].
  repeat split.
Qed.

(** X3: when the network is unreachable, a GET on a cacheable endpoint is
    answered with the cached entry for that URL whatever its age, and with
    the 503 [Offline] response when there is none; the cache is unchanged. *)
Theorem offline_get_falls_back_to_cache
    (request : Request) (now1 now2 : Z) (w : World) :
  isCacheable (pathname request) = true ->
  let out := handleAPIGet parseInt request None now1 now2 w in
  fst out = match apiCache w !! url request with
            | Some c => c
            | None => offlineNotCached
            end
  /\ apiCache (snd out) = apiCache w.
Proof.
  intros Hc. unfold handleAPIGet. rewrite Hc. simpl.
  destruct (freshEntry parseInt now1 (apiCache w !! url request)) as [c|] eqn:Hf.
  - apply freshEntry_Some in Hf. rewrite Hf. split; reflexivity.
  - simpl. destruct (apiCache w !! url request); split; reflexivity.
Qed.

(** X4: [handleAPIGet] changes the API cache in one way only: by storing,
    under the URL of the request, the ok response the network gave for a
    cacheable endpoint, stamped with the time; a response that is not ok, a
    failure of the network or an endpoint that is not cacheable leave the
    cache as it was.  The offline queue is never touched. *)
Theorem api_cache_only_stores_ok_responses
    (request : Request) (net : option Response) (now1 now2 : Z) (w : World) :
  let w' := snd (handleAPIGet parseInt request net now1 now2 w) in
  offlineQueue w' = offlineQueue w
  /\ (apiCache w' = apiCache w
      \/ exists r,
           net = Some r /\ ok r = true /\ isCacheable (pathname request) = true
           /\ apiCache w'
              = <[url request :=
                    {| status := status r;
                       headers := <["sw-cache-date" := toString now2]> (headers r);
                       body := body r |}]> (apiCache w)).
Proof.
  unfold handleAPIGet.
  destruct (isCacheable (pathname request)) eqn:Hc; simpl.
  - destruct (freshEntry parseInt now1 (apiCache w !! url request)); simpl; [auto|].
    destruct net as [r|]; simpl.
    + destruct (ok r) eqn:Hok; simpl; [|auto].
      split; [reflexivity|]. right. exists r. auto.
    + destruct (apiCache w !! url request); simpl; auto.
  - destruct net; simpl; auto.
Qed.

(** X5: an entry stored by [cacheAPIResponse] is served by [handleAPIGet]
    exactly while it is less than five minutes old: the expiry given with
    it plays no part.  Younger than five minutes, it is returned without a
    fetch; from five minutes on, the network is asked, whatever the expiry
    in minutes that was asked for. *)
Theorem manual_entry_lives_five_minutes
    (request : Request) (data_ : json) (expiry : option Z) (net : option Response)
    (now1 now2 now3 now4 : Z) (w : World) :
  isCacheable (pathname request) = true ->
  parseInt (toString now1) = Some now1 ->
  let w1 := cacheAPIResponse (url request) data_ expiry now1 now2 w in
  let out := handleAPIGet parseInt request net now3 now4 w1 in
  (now3 - now1 < 5 * 60 * 1000 ->
     status (fst out) = 200 /\ body (fst out) = data_ /\ snd out = w1)
  /\ (5 * 60 * 1000 <= now3 - now1 ->
        fetched (snd out) = url request :: fetched w).
Proof.
  intros Hc Hparse w1 out. subst out w1.
  unfold handleAPIGet, cacheAPIResponse. rewrite Hc. simpl.
  rewrite lookup_insert_eq.
  rewrite (freshEntry_dated now3 now1 _ (toString now1));
    [|simpl; rewrite lookup_insert_ne by discriminate; apply lookup_insert_eq
     |apply toString_nonempty | exact Hparse].
  destruct (Z.ltb_spec (now3 - now1) (5 * 60 * 1000)) as [Hlt|Hge].
  - split; [intros _; repeat split | intros H; lia].
  - split; [intros H; lia|]. intros _.
    destruct net as [r|]; simpl.
    + destruct (ok r); reflexivity.
    + reflexivity.
Qed.
End Get.

(** X6: activation keeps the three caches of this version, with their
    content, and deletes every other cache. *)
Theorem activate_keeps_current_caches
    (caches : gmap string (gmap string Response)) (name : string) :
  activate caches !! name
  = if decide (name = STATIC_CACHE \/ name = DYNAMIC_CACHE \/ name = API_CACHE)
    then caches !! name else None.
Proof.
  unfold activate. destruct (decide _) as [H|H].
  - destruct (caches !! name) as [c|] eqn:E.
    + apply map_lookup_filter_Some. split; [exact E|]. simpl. tauto.
    + apply map_lookup_filter_None. left. exact E.
  - apply map_lookup_filter_None. right. intros c _. simpl. intros Hk. apply Hk.
    repeat split; intros E; apply H; tauto.
Qed.

Lemma network_response_primes_cache_witness :
  let parseInt := fun s : string => if String.eqb s "1000" then Some 1000 else None in
  let request := {| url := "https://finxchange.app/api/wallet";
                    pathname := "/api/wallet"; method := "GET"; reqBody := None |} in
  let r := {| status := 200; headers := jsonHeaders;
              body := JObj [ ("balance", JStr "250.00") ] |} in
  let w := {| apiCache := ∅; offlineQueue := None; fetched := [] |} in
  let first := handleAPIGet parseInt request (Some r) 900 1000 w in
  let second := handleAPIGet parseInt request None 2000 2001 (snd first) in
  fst first = r
  /\ fetched (snd first) = url request :: fetched w
  /\ status (fst second) = status r
  /\ body (fst second) = body r
  /\ snd second = snd first.
Proof.
  intros parseInt request r w.
  apply (network_response_primes_cache parseInt request r None 900 1000 2000 2001 w).
  - reflexivity.
  - reflexivity.
  - reflexivity.
  - reflexivity.
  - lia.
Defined.

Lemma offline_get_falls_back_to_cache_witness :
  let parseInt := fun s : string => if String.eqb s "1000" then Some 1000 else None in
  let request := {| url := "https://finxchange.app/api/banks";
                    pathname := "/api/banks"; method := "GET"; reqBody := None |} in
  let w := {| apiCache := ∅; offlineQueue := None; fetched := [] |} in
  let out := handleAPIGet parseInt request None 5 6 w in
  fst out = match apiCache w !! url request with
            | Some c => c
            | None => offlineNotCached
            end
  /\ apiCache (snd out) = apiCache w.
Proof.
  intros parseInt request w.
  apply (offline_get_falls_back_to_cache parseInt request 5 6 w).
  reflexivity.
Defined.

Lemma manual_entry_lives_five_minutes_witness :
  let parseInt := fun s : string => if String.eqb s "1000" then Some 1000 else None in
  let request := {| url := "/api/wallet"; pathname := "/api/wallet"; method := "GET";
                    reqBody := None |} in
  let data_ := JObj [ ("balance", JStr "250.00") ] in
  let w := {| apiCache := ∅; offlineQueue := None; fetched := [] |} in
  let w1 := cacheAPIResponse (url request) data_ (Some 60) 1000 1000 w in
  let out := handleAPIGet parseInt request None 400000 400001 w1 in
  (400000 - 1000 < 5 * 60 * 1000 ->
     status (fst out) = 200 /\ body (fst out) = data_ /\ snd out = w1)
  /\ (5 * 60 * 1000 <= 400000 - 1000 ->
        fetched (snd out) = url request :: fetched w).
Proof.
  intros parseInt request data_ w.
  apply (manual_entry_lives_five_minutes parseInt request data_ (Some 60) None
           1000 1000 400000 400001 w).
  - reflexivity.
  - reflexivity.
Defined.

End ServiceWorkerMore.

(** ** Object stores, continued *)

Section ObjectStoreMore.
Context {V : Type} (keyOf : V -> string).

Lemma os_delete_absent (k : string) (st : list V) :
  os_get keyOf k st = None -> os_delete keyOf k st = st.
Proof.
  unfold os_get, os_delete. induction st as [|x st IH]; simpl; [reflexivity|].
  destruct (String.eqb (keyOf x) k); simpl; [discriminate|].
  intros H. f_equal. apply IH, H.
Qed.

Lemma os_delete_idem (k : string) (st : list V) :
  os_delete keyOf k (os_delete keyOf k st) = os_delete keyOf k st.
Proof. apply os_delete_absent, os_get_delete. Qed.

Lemma os_delete_insert (v : V) (st : list V) :
  os_get keyOf (keyOf v) st = None ->
  os_delete keyOf (keyOf v) (os_insert keyOf v st) = st.
Proof.
  unfold os_get, os_delete. induction st as [|x st IH]; simpl.
  - rewrite String.eqb_refl. reflexivity.
  - destruct (String.eqb (keyOf x) (keyOf v)) eqn:E; [discriminate|]. intros H.
    destruct (String.ltb (keyOf v) (keyOf x)); simpl.
    + rewrite String.eqb_refl, E. simpl. f_equal.
      apply (os_delete_absent (keyOf v) st), H.
    + rewrite E. simpl. f_equal. apply IH, H.
Qed.

Lemma os_get_insert_eq (v : V) (st : list V) :
  os_get keyOf (keyOf v) st = None ->
  os_get keyOf (keyOf v) (os_insert keyOf v st) = Some v.
Proof.
  unfold os_get. induction st as [|x st IH]; simpl.
  - rewrite String.eqb_refl. reflexivity.
  - destruct (String.eqb (keyOf x) (keyOf v)) eqn:E; [discriminate|]. intros H.
    destruct (String.ltb (keyOf v) (keyOf x)); simpl.
    + rewrite String.eqb_refl. reflexivity.
    + rewrite E. apply IH, H.
Qed.

Lemma os_get_insert_ne (k : string) (v : V) (st : list V) :
  k <> keyOf v -> os_get keyOf k (os_insert keyOf v st) = os_get keyOf k st.
Proof.
  intros Hne. unfold os_get. induction st as [|x st IH]; simpl.
  - destruct (String.eqb_spec (keyOf v) k); [congruence | reflexivity].
  - destruct (String.ltb (keyOf v) (keyOf x)); simpl.
    + destruct (String.eqb_spec (keyOf v) k); [congruence | reflexivity].
    + destruct (String.eqb (keyOf x) k); [reflexivity | exact IH].
Qed.

Lemma os_get_delete_ne (k k' : string) (st : list V) :
  k <> k' -> os_get keyOf k (os_delete keyOf k' st) = os_get keyOf k st.
Proof.
  intros Hne. unfold os_get, os_delete. induction st as [|x st IH]; simpl; [reflexivity|].
  destruct (String.eqb_spec (keyOf x) k') as [E|E]; simpl.
  - destruct (String.eqb_spec (keyOf x) k); [congruence | exact IH].
  - destruct (String.eqb (keyOf x) k); [reflexivity | exact IH].
Qed.

Lemma os_get_put_eq (v : V) (st : list V) :
  os_get keyOf (keyOf v) (os_put keyOf v st) = Some v.
Proof. unfold os_put. apply os_get_insert_eq, os_get_delete. Qed.

Lemma os_get_put_ne (k : string) (v : V) (st : list V) :
  k <> keyOf v -> os_get keyOf k (os_put keyOf v st) = os_get keyOf k st.
Proof.
  intros Hne. unfold os_put.
  rewrite (os_get_insert_ne _ _ _ Hne). apply os_get_delete_ne, Hne.
Qed.

Lemma os_keys_put_NoDup (v : V) (st : list V) :
  List.NoDup (os_keys keyOf st) -> List.NoDup (os_keys keyOf (os_put keyOf v st)).
Proof.
  intros H. unfold os_put.
  apply (Permutation_NoDup (l := keyOf v :: os_keys keyOf (os_delete keyOf (keyOf v) st))).
  - symmetry. apply os_keys_insert_perm.
  - constructor; [|apply os_delete_NoDup, H].
    rewrite os_keys_delete_In. tauto.
Qed.

(** With one record per key, a record found is still found after a filter
    exactly when the filter keeps it. *)
Lemma os_get_filter (f : V -> bool) (k : string) (st : list V) :
  List.NoDup (os_keys keyOf st) ->
  os_get keyOf k (List.filter f st)
  = match os_get keyOf k st with
    | Some v => if f v then Some v else None
    | None => None
    end.
Proof.
  unfold os_get, os_keys. induction st as [|x st IH]; simpl; intros Hnd; [reflexivity|].
  apply List.NoDup_cons_iff in Hnd as [Hx Hst].
  destruct (String.eqb_spec (keyOf x) k) as [E|E].
  - destruct (f x); simpl.
    + destruct (String.eqb_spec (keyOf x) k); [reflexivity | contradiction].
    + rewrite (IH Hst).
      assert (Hnone : find (fun v => String.eqb (keyOf v) k) st = None).
      { apply (os_get_None keyOf k st). rewrite <- E. exact Hx. }
      rewrite Hnone. reflexivity.
  - destruct (f x); simpl.
    + destruct (String.eqb_spec (keyOf x) k); [contradiction | apply IH, Hst].
    + apply IH, Hst.
Qed.
End ObjectStoreMore.

Lemma os_get_key {V : Type} (keyOf : V -> string) (k : string) (st : list V) (v : V) :
  os_get keyOf k st = Some v -> keyOf v = k.
Proof.
  unfold os_get. intros H. apply find_some in H as [_ Hk]. apply String.eqb_eq, Hk.
Qed.

Lemma filter_os_insert {V : Type} (keyOf : V -> string) (f : V -> bool) (v : V)
    (st : list V) :
  f v = false -> List.filter f (os_insert keyOf v st) = List.filter f st.
Proof.
  intros Hf. induction st as [|x st IH]; simpl.
  - rewrite Hf. reflexivity.
  - destruct (String.ltb (keyOf v) (keyOf x)); simpl.
    + rewrite Hf. reflexivity.
    + rewrite IH. reflexivity.
Qed.

(** ** The offline storage, continued *)

Module OfflineStorageMore.
Import Queue OfflineStorage OfflineStorageFacts.

(** X7: with the store open, removing a record resolves whether or not the
    id is there; removing it a second time resolves too and changes
    nothing; and removing an id the store does not hold leaves the store as
    it is. *)
Theorem remove_is_idempotent (i : string) (s : Storage) (st : list StoredTransaction) :
  indexedDB s = Some st ->
  let once := removeOfflineTransaction i s in
  let twice := removeOfflineTransaction i (snd once) in
  fst once = Ok tt
  /\ fst twice = Ok tt
  /\ snd twice = snd once
  /\ (os_get keyPath i st = None -> indexedDB (snd once) = Some st).
Proof.
  intros H once twice. subst twice once.
  rewrite (remove_open i s st H). cbn [fst snd].
  rewrite (remove_open i (opened _) _ eq_refl). cbn [fst snd].
  rewrite os_delete_idem. repeat split.
  intros Habs. rewrite (os_delete_absent keyPath i st Habs). reflexivity.
Qed.

Lemma remove_is_idempotent_witness :
  let t := {| id := "offline_1_a"; type := airtime; amount := "100"; description := "Airtime";
              recipientDetails := JNull; metadata := None; timestamp := 1;
              status := queued |} in
  let st := [ {| userId := "user-1"; transaction := t |} ] in
  let s := {| isInitialized := false; indexedDB := Some st |} in
  let once := removeOfflineTransaction "offline_1_a" s in
  let twice := removeOfflineTransaction "offline_1_a" (snd once) in
  fst once = Ok tt
  /\ fst twice = Ok tt
  /\ snd twice = snd once
  /\ (os_get keyPath "offline_1_a" st = None -> indexedDB (snd once) = Some st).
Proof.
  intros t st s. apply (remove_is_idempotent "offline_1_a" s st). reflexivity.
Defined.

(** X8: adding a record under an id the store does not hold and removing
    that id again gives back the store as it was. *)
Theorem add_then_remove_restores (u : string) (t : OfflineTransaction) (s : Storage)
    (st : list StoredTransaction) :
  indexedDB s = Some st ->
  os_get keyPath (id t) st = None ->
  let added := addOfflineTransaction u t s in
  fst added = Ok tt
  /\ removeOfflineTransaction (id t) (snd added) = (Ok tt, opened st).
Proof.
  intros H Hfresh added. subst added. rewrite (add_fresh u t s st H Hfresh).
  cbn [fst snd]. split; [reflexivity|].
  rewrite (remove_open (id t) (opened _) _ eq_refl).
  change (id t) with (keyPath {| userId := u; transaction := t |}) at 1.
  rewrite os_delete_insert; [reflexivity | exact Hfresh].
Qed.

Lemma add_then_remove_restores_witness :
  let t := {| id := "offline_2_b"; type := data; amount := "500"; description := "Data";
              recipientDetails := JNull; metadata := None; timestamp := 2;
              status := queued |} in
  let old := {| id := "offline_1_a"; type := airtime; amount := "100";
                description := "Airtime"; recipientDetails := JNull; metadata := None;
                timestamp := 1; status := queued |} in
  let st := [ {| userId := "user-1"; transaction := old |} ] in
  let s := {| isInitialized := true; indexedDB := Some st |} in
  let added := addOfflineTransaction "user-1" t s in
  fst added = Ok tt
  /\ removeOfflineTransaction (id t) (snd added) = (Ok tt, opened st).
Proof.
  intros t old st s. apply (add_then_remove_restores "user-1" t s st); reflexivity.
Defined.

(** X9: the records of one user never show in the list of another: adding
    a record for [u], whether it succeeds or not, leaves what
    [getOfflineTransactions] gives any other user unchanged. *)
Theorem add_leaves_other_users_lists (u u' : string) (t : OfflineTransaction)
    (s : Storage) :
  u <> u' ->
  fst (getOfflineTransactions u' (snd (addOfflineTransaction u t s)))
  = fst (getOfflineTransactions u' s).
Proof.
  intros Hne. destruct (indexedDB s) as [st|] eqn:Hdb.
  - rewrite (get_open u' s st Hdb).
    destruct (os_get keyPath (id t) st) as [r|] eqn:Hget.
    + rewrite (add_taken u t s st r Hdb Hget). cbn [fst snd].
      rewrite (get_open u' (opened st) st eq_refl). reflexivity.
    + rewrite (add_fresh u t s st Hdb Hget). cbn [fst snd].
      rewrite (get_open u' (opened _) _ eq_refl). cbn [fst snd].
      unfold index_getAll. rewrite filter_os_insert; [reflexivity|].
      simpl. apply String.eqb_neq, Hne.
  - destruct (closed_rejects
                (fun st =>
                   match os_add keyPath {| userId := u; transaction := t |} st with
                   | Some st' => (Ok tt, st')
                   | None => (Err "Failed to add offline transaction", st)
                   end) s Hdb) as [e He].
    unfold addOfflineTransaction. rewrite He. reflexivity.
Qed.

Lemma add_leaves_other_users_lists_witness :
  let t := {| id := "offline_2_b"; type := data; amount := "500"; description := "Data";
              recipientDetails := JNull; metadata := None; timestamp := 2;
              status := queued |} in
  let old := {| id := "offline_1_a"; type := airtime; amount := "100";
                description := "Airtime"; recipientDetails := JNull; metadata := None;
                timestamp := 1; status := queued |} in
  let s := {| isInitialized := true;
              indexedDB := Some [ {| userId := "user-2"; transaction := old |} ] |} in
  fst (getOfflineTransactions "user-2" (snd (addOfflineTransaction "user-1" t s)))
  = fst (getOfflineTransactions "user-2" s).
Proof.
  intros t old s. apply (add_leaves_other_users_lists "user-1" "user-2" t s).
  discriminate.
Defined.

(** X10: with the store open, [updateOfflineTransaction] rejects with
    [Transaction not found] and changes nothing when no record has the id;
    otherwise it resolves and puts the merged record, which keeps the
    [userId] of the existing one, under the id the merge gives it; the
    records under every other id are as before.  (When the updates carry
    another id, the record under the old id is therefore still there.) *)
Theorem update_puts_the_merged_record (i : string) (p : Partial) (s : Storage)
    (st : list StoredTransaction) :
  indexedDB s = Some st ->
  let out := updateOfflineTransaction i p s in
  match os_get keyPath i st with
  | None => out = (Err "Transaction not found", opened st)
  | Some existing =>
      let merged := applyUpdates p existing in
      fst out = Ok tt
      /\ userId merged = userId existing
      /\ (p_id p = None -> keyPath merged = i)
      /\ exists st',
           indexedDB (snd out) = Some st'
           /\ os_get keyPath (keyPath merged) st' = Some merged
           /\ (forall k, k <> keyPath merged ->
                 os_get keyPath k st' = os_get keyPath k st)
           /\ (List.NoDup (os_keys keyPath st) -> List.NoDup (os_keys keyPath st'))
  end.
Proof.
  intros H out. subst out. unfold updateOfflineTransaction.
  rewrite (open_runs _ s st H).
  destruct (os_get keyPath i st) as [existing|] eqn:Hget; [|reflexivity].
  simpl. split; [reflexivity|]. split; [reflexivity|]. split.
  - intros Hid. unfold keyPath at 1. simpl. rewrite Hid. simpl.
    apply (os_get_key keyPath i st existing Hget).
  - eexists. split; [reflexivity|]. split; [apply os_get_put_eq|]. split.
    + intros k Hk. apply os_get_put_ne, Hk.
    + apply os_keys_put_NoDup.
Qed.

Lemma update_puts_the_merged_record_witness :
  let old := {| id := "offline_1_a"; type := airtime; amount := "100";
                description := "Airtime"; recipientDetails := JNull; metadata := None;
                timestamp := 1; status := queued |} in
  let p := {| p_id := None; p_type := None; p_amount := None; p_description := None;
              p_recipientDetails := None; p_metadata := None; p_timestamp := None;
              p_status := Some failed |} in
  let st := [ {| userId := "user-1"; transaction := old |} ] in
  let s := {| isInitialized := false; indexedDB := Some st |} in
  let out := updateOfflineTransaction "offline_1_a" p s in
  match os_get keyPath "offline_1_a" st with
  | None => out = (Err "Transaction not found", opened st)
  | Some existing =>
      let merged := applyUpdates p existing in
      fst out = Ok tt
      /\ userId merged = userId existing
      /\ (p_id p = None -> keyPath merged = "offline_1_a")
      /\ exists st',
           indexedDB (snd out) = Some st'
           /\ os_get keyPath (keyPath merged) st' = Some merged
           /\ (forall k, k <> keyPath merged ->
                 os_get keyPath k st' = os_get keyPath k st)
           /\ (List.NoDup (os_keys keyPath st) -> List.NoDup (os_keys keyPath st'))
  end.
Proof.
  intros old p st s. apply (update_puts_the_merged_record "offline_1_a" p s st).
  reflexivity.
Defined.

Lemma filter_out_then_in (u : string) (st : list StoredTransaction) :
  index_getAll u (List.filter (fun r => negb (String.eqb (userId r) u)) st) = [].
Proof.
  unfold index_getAll. induction st as [|r st IH]; simpl; [reflexivity|].
  destruct (String.eqb (userId r) u) eqn:E; simpl; [exact IH|].
  rewrite E. exact IH.
Qed.

Lemma filter_out_other (u u' : string) (st : list StoredTransaction) :
  u' <> u ->
  index_getAll u' (List.filter (fun r => negb (String.eqb (userId r) u)) st)
  = index_getAll u' st.
Proof.
  intros Hne. unfold index_getAll. induction st as [|r st IH]; simpl; [reflexivity|].
  destruct (String.eqb_spec (userId r) u) as [E|E]; simpl.
  - destruct (String.eqb_spec (userId r) u'); [congruence | exact IH].
  - rewrite IH. reflexivity.
Qed.

(** X11: with the store open, [clearOfflineTransactions] resolves; the list
    of that user is then empty, and the list of every other user is what it
    was. *)
Theorem clear_empties_one_user (u : string) (s : Storage) (st : list StoredTransaction) :
  indexedDB s = Some st ->
  let out := clearOfflineTransactions u s in
  fst out = Ok tt
  /\ fst (getOfflineTransactions u (snd out)) = Ok []
  /\ forall u', u' <> u ->
       fst (getOfflineTransactions u' (snd out)) = fst (getOfflineTransactions u' s).
Proof.
  intros H out. subst out. unfold clearOfflineTransactions.
  rewrite (open_runs _ s st H). cbn [fst snd]. split; [reflexivity|]. split.
  - rewrite (get_open u (opened _) _ eq_refl). cbn [fst snd].
    rewrite filter_out_then_in. reflexivity.
  - intros u' Hne. rewrite (get_open u' (opened _) _ eq_refl), (get_open u' s st H).
    cbn [fst snd]. rewrite (filter_out_other u u' st Hne). reflexivity.
Qed.

Lemma clear_empties_one_user_witness :
  let a := {| id := "offline_1_a"; type := airtime; amount := "100";
              description := "Airtime"; recipientDetails := JNull; metadata := None;
              timestamp := 1; status := queued |} in
  let b := {| id := "offline_2_b"; type := data; amount := "500"; description := "Data";
              recipientDetails := JNull; metadata := None; timestamp := 2;
              status := queued |} in
  let st := [ {| userId := "user-1"; transaction := a |};
              {| userId := "user-2"; transaction := b |} ] in
  let s := {| isInitialized := false; indexedDB := Some st |} in
  let out := clearOfflineTransactions "user-1" s in
  fst out = Ok tt
  /\ fst (getOfflineTransactions "user-1" (snd out)) = Ok []
  /\ forall u', u' <> "user-1" ->
       fst (getOfflineTransactions u' (snd out)) = fst (getOfflineTransactions u' s).
Proof.
  intros a b st s. apply (clear_empties_one_user "user-1" s st). reflexivity.
Defined.

End OfflineStorageMore.

(** ** The user data and the cached data *)

Module OfflineDataFacts.
Import OfflineData.

Lemma data_open_runs {A : Type} (request : Stores -> result A * Stores)
    (s : Storage) (st : Stores) :
  indexedDB s = Some st ->
  (ensureInitialized ;;; onStores request) s
  = (fst (request st), opened (snd (request st))).
Proof.
  intros H. unfold bind, ensureInitialized, onStores, opened.
  destruct s as [[|] db]; simpl in *; subst; simpl; destruct (request st); reflexivity.
Qed.

Lemma getCacheData_open (k : string) (now : Z) (s : Storage) (st : Stores) :
  indexedDB s = Some st ->
  getCacheData k now s
  = match os_get key k (cacheData st) with
    | None => (Ok JNull, opened st)
    | Some c =>
        if expired now c
        then (Ok JNull, opened (withCacheData (os_delete key k) st))
        else (Ok (data c), opened st)
    end.
Proof.
  intros H. unfold getCacheData. rewrite (data_open_runs _ s st H).
  destruct (os_get key k (cacheData st)) as [c|]; [|reflexivity].
  destruct (expired now c); reflexivity.
Qed.

Lemma getUserPreferences_open (u : string) (s : Storage) (st : Stores) :
  indexedDB s = Some st ->
  getUserPreferences u s
  = (Ok (match os_get userId u (userData st) with
         | Some r => if truthy (preferences r) then preferences r else JNull
         | None => JNull
         end), opened st).
Proof.
  intros H. unfold getUserPreferences, getUserData.
  unfold bind at 1. rewrite (data_open_runs _ s st H). reflexivity.
Qed.

(** X12: with the store open, an entry written by [setCacheData] is read
    back by [getCacheData] under the same key until its expiry has passed:
    without an expiry (none asked for, or zero minutes) it is read back at
    any time; with one, the read gives the data up to the expiry time and
    [null] after it, and the entry is then gone from the store. *)
Theorem cache_entry_read_back_until_expiry
    (k : string) (d : json) (m : option Z) (now1 now2 now3 : Z)
    (s : Storage) (st : Stores) :
  indexedDB s = Some st ->
  let written := setCacheData k d m now1 now2 s in
  let read := getCacheData k now3 (snd written) in
  let lapsed :=
    match m with
    | Some minutes =>
        negb (minutes =? 0) && negb (now2 + minutes * 60 * 1000 =? 0)
        && (now2 + minutes * 60 * 1000 <? now3)
    | None => false
    end in
  fst written = Ok tt
  /\ fst read = Ok (if lapsed then JNull else d)
  /\ (lapsed = true ->
        exists st', indexedDB (snd read) = Some st'
                    /\ os_get key k (cacheData st') = None).
Proof.
  intros H written read lapsed. subst read written.
  unfold setCacheData. rewrite (data_open_runs _ s st H). cbn [fst snd].
  split; [reflexivity|].
  rewrite (getCacheData_open k now3 (opened _) _ eq_refl).
  set (record := {| key := k; data := d; timestamp := now1;
                    expiry := match m with
                              | Some m0 =>
                                  if m0 =? 0 then None else Some (now2 + m0 * 60 * 1000)
                              | None => None
                              end |}).
  change (cacheData (withCacheData (os_put key record) st))
    with (os_put key record (cacheData st)).
  assert (Hget : os_get key k (os_put key record (cacheData st)) = Some record)
    by apply (os_get_put_eq key record).
  rewrite Hget.
  assert (Hexp : expired now3 record = lapsed).
  { unfold expired, lapsed, record. simpl. destruct m as [m0|]; [|reflexivity].
    destruct (m0 =? 0); reflexivity. }
  rewrite Hexp. destruct lapsed; cbn [fst snd].
  - split; [reflexivity|]. intros _. eexists. split; [reflexivity|].
    simpl. apply os_get_delete.
  - split; [reflexivity | discriminate].
Qed.

Lemma cache_entry_read_back_until_expiry_witness :
  let st := {| userData := []; cacheData := [] |} in
  let s := {| isInitialized := false; indexedDB := Some st |} in
  let d := JObj [ ("balance", JStr "250.00") ] in
  let written := setCacheData "api_/api/wallet" d (Some 5) 1000 1000 s in
  let read := getCacheData "api_/api/wallet" 400000 (snd written) in
  let lapsed :=
    negb (5 =? 0) && negb (1000 + 5 * 60 * 1000 =? 0) && (1000 + 5 * 60 * 1000 <? 400000) in
  fst written = Ok tt
  /\ fst read = Ok (if lapsed then JNull else d)
  /\ (lapsed = true ->
        exists st', indexedDB (snd read) = Some st'
                    /\ os_get key "api_/api/wallet" (cacheData st') = None).
Proof.
  intros st s d.
  apply (cache_entry_read_back_until_expiry "api_/api/wallet" d (Some 5)
           1000 1000 400000 s st).
  reflexivity.
Defined.

Lemma expired_mono (now now' : Z) (c : CacheData) :
  now <= now' -> expired now c = true -> expired now' c = true.
Proof.
  unfold expired. destruct (expiry c) as [e|]; [|discriminate].
  intros Hle H. apply andb_true_iff in H as [H0 Hlt].
  rewrite H0. simpl. apply Z.ltb_lt in Hlt. apply Z.ltb_lt. lia.
Qed.

(** X13: with one entry per key, a sweep by [clearExpiredCache] cannot be
    told from the reads that follow it: whatever the key, [getCacheData]
    gives the same answer after the sweep as it would have given without
    it. *)
Theorem sweep_is_invisible_to_reads
    (now now' : Z) (k : string) (s : Storage) (st : Stores) :
  indexedDB s = Some st ->
  List.NoDup (os_keys key (cacheData st)) ->
  now <= now' ->
  fst (clearExpiredCache now s) = Ok tt
  /\ fst (getCacheData k now' (snd (clearExpiredCache now s)))
     = fst (getCacheData k now' s).
Proof.
  intros H Hnd Hle. unfold clearExpiredCache. rewrite (data_open_runs _ s st H).
  cbn [fst snd]. split; [reflexivity|].
  rewrite (getCacheData_open k now' (opened _) _ eq_refl), (getCacheData_open k now' s st H).
  change (cacheData (withCacheData (List.filter (fun c => negb (expired now c))) st))
    with (List.filter (fun c => negb (expired now c)) (cacheData st)).
  rewrite (os_get_filter key _ k _ Hnd).
  destruct (os_get key k (cacheData st)) as [c|]; [|reflexivity].
  destruct (expired now c) eqn:E; simpl.
  - rewrite (expired_mono now now' c Hle E). reflexivity.
  - destruct (expired now' c); reflexivity.
Qed.

Lemma sweep_is_invisible_to_reads_witness :
  let c := {| key := "api_/api/wallet"; data := JStr "x"; timestamp := 0;
              expiry := Some 300000 |} in
  let st := {| userData := []; cacheData := [c] |} in
  let s := {| isInitialized := false; indexedDB := Some st |} in
  fst (clearExpiredCache 400000 s) = Ok tt
  /\ fst (getCacheData "api_/api/wallet" 400001 (snd (clearExpiredCache 400000 s)))
     = fst (getCacheData "api_/api/wallet" 400001 s).
Proof.
  intros c st s.
  apply (sweep_is_invisible_to_reads 400000 400001 "api_/api/wallet" s st).
  - reflexivity.
  - simpl. repeat constructor. simpl. tauto.
  - lia.
Defined.

(** X14: with the store open, the preferences set for a user are read back
    for that user (as [null] when the value is falsy), and the preferences
    of every other user are what they were. *)
Theorem preferences_round_trip (u : string) (p : json) (now : Z)
    (s : Storage) (st : Stores) :
  indexedDB s = Some st ->
  let written := setUserPreferences u p now s in
  fst written = Ok tt
  /\ fst (getUserPreferences u (snd written)) = Ok (if truthy p then p else JNull)
  /\ forall u', u' <> u ->
       fst (getUserPreferences u' (snd written)) = fst (getUserPreferences u' s).
Proof.
  intros H written. subst written. unfold setUserPreferences, setUserData.
  rewrite (data_open_runs _ s st H). cbn [fst snd]. split; [reflexivity|].
  set (record := {| userId := default u (p_userId _); lastSync := _; preferences := _ |}).
  change (userData (withUserData (os_put userId record) st))
    with (os_put userId record (userData st)).
  split.
  - rewrite (getUserPreferences_open u (opened _) _ eq_refl). cbn [fst].
    change (userData (withUserData (os_put userId record) st))
      with (os_put userId record (userData st)).
    rewrite (os_get_put_eq userId record (userData st) : os_get userId u _ = _).
    reflexivity.
  - intros u' Hne.
    rewrite (getUserPreferences_open u' (opened _) _ eq_refl),
            (getUserPreferences_open u' s st H). cbn [fst].
    change (userData (withUserData (os_put userId record) st))
      with (os_put userId record (userData st)).
    rewrite os_get_put_ne; [reflexivity | exact Hne].
Qed.

Lemma preferences_round_trip_witness :
  let st := {| userData := []; cacheData := [] |} in
  let s := {| isInitialized := false; indexedDB := Some st |} in
  let p := JObj [ ("theme", JStr "dark") ] in
  let written := setUserPreferences "user-1" p 1000 s in
  fst written = Ok tt
  /\ fst (getUserPreferences "user-1" (snd written)) = Ok (if truthy p then p else JNull)
  /\ forall u', u' <> "user-1" ->
       fst (getUserPreferences u' (snd written)) = fst (getUserPreferences u' s).
Proof.
  intros st s p. apply (preferences_round_trip "user-1" p 1000 s st). reflexivity.
Defined.

(** X15: [setUserData] writes a whole record: a call that gives the time of
    the last synchronisation only puts the empty object in the place of the
    preferences that were stored for that user. *)
Theorem setUserData_resets_preferences (u : string) (t now : Z)
    (s : Storage) (st : Stores) :
  indexedDB s = Some st ->
  let written :=
    setUserData u {| p_userId := None; p_lastSync := Some t; p_preferences := None |}
      now s in
  fst written = Ok tt
  /\ fst (getUserData u (snd written))
     = Ok (Some {| userId := u; lastSync := t; preferences := JObj [] |})
  /\ fst (getUserPreferences u (snd written)) = Ok (JObj []).
Proof.
  intros H written. subst written. unfold setUserData.
  rewrite (data_open_runs _ s st H). cbn [fst snd]. split; [reflexivity|].
  set (record := {| userId := u; lastSync := t; preferences := JObj [] |}).
  assert (Hget : os_get userId u (os_put userId record (userData st)) = Some record)
    by apply (os_get_put_eq userId record).
  split.
  - unfold getUserData. rewrite (data_open_runs _ (opened _) _ eq_refl). cbn [fst].
    exact (f_equal Ok Hget).
  - rewrite (getUserPreferences_open u (opened _) _ eq_refl). cbn [fst]. f_equal.
    change (match os_get userId u (os_put userId record (userData st)) with
            | Some r => if truthy (preferences r) then preferences r else JNull
            | None => JNull
            end = JObj []).
    rewrite Hget. reflexivity.
Qed.

Lemma setUserData_resets_preferences_witness :
  let old := {| userId := "user-1"; lastSync := 5;
                preferences := JObj [ ("theme", JStr "dark") ] |} in
  let st := {| userData := [old]; cacheData := [] |} in
  let s := {| isInitialized := true; indexedDB := Some st |} in
  let written :=
    setUserData "user-1"
      {| p_userId := None; p_lastSync := Some 9; p_preferences := None |} 10 s in
  fst written = Ok tt
  /\ fst (getUserData "user-1" (snd written))
     = Ok (Some {| userId := "user-1"; lastSync := 9; preferences := JObj [] |})
  /\ fst (getUserPreferences "user-1" (snd written)) = Ok (JObj []).
Proof.
  intros old st s. apply (setUserData_resets_preferences "user-1" 9 10 s st).
  reflexivity.
Defined.

End OfflineDataFacts.

(** ** The offline queue hook, continued *)

Module OfflineQueueMore.
Import Queue OfflineStorage OfflineQueue QueueSpec OfflineStorageFacts OfflineQueueFacts.

Lemma processOne_requests (u : string) (t : OfflineTransaction) (o : FetchOutcome)
    (w : World) :
  requests (processOne u t o w) = fetchCallOf t :: requests w.
Proof.
  unfold processOne. destruct o; simpl; try reflexivity.
  destruct (removeFromOfflineQueue u (id t) (storage w)) as [[[]|e] s']; reflexivity.
Qed.

Lemma processOne_other (u : string) (t : OfflineTransaction) (o : FetchOutcome)
    (w : World) (j : string) :
  j <> id t ->
  status_of j (queuedTransactions (processOne u t o w))
  = status_of j (queuedTransactions w).
Proof.
  intros Hj. unfold processOne. destruct o; simpl.
  - destruct (removeFromOfflineQueue u (id t) (storage w)) as [[[]|e] s']; simpl.
    + rewrite status_of_dropId_ne, status_of_markStatus_ne by exact Hj. reflexivity.
    + rewrite !status_of_markStatus_ne by exact Hj. reflexivity.
  - rewrite !status_of_markStatus_ne by exact Hj. reflexivity.
  - rewrite !status_of_markStatus_ne by exact Hj. reflexivity.
Qed.

Lemma drainLoop_requests (u : string) (net : nat -> FetchOutcome)
    (ts : list OfflineTransaction) :
  forall (k : nat) (w : World),
    requests (drainLoop u net ts k w)
    = (rev (map fetchCallOf (List.filter (fun t => Status_eqb (status t) queued) ts))
       ++ requests w)%list.
Proof.
  induction ts as [|t rest IH]; intros k w; simpl; [reflexivity|].
  destruct (Status_eqb (status t) queued); [|apply IH].
  rewrite IH, processOne_requests. simpl. rewrite <- List.app_assoc. reflexivity.
Qed.

Lemma drainLoop_other (u : string) (net : nat -> FetchOutcome) (i : string)
    (ts : list OfflineTransaction) :
  forall (k : nat) (w : World),
    (forall t, In t ts -> status t = queued -> id t <> i) ->
    status_of i (queuedTransactions (drainLoop u net ts k w))
    = status_of i (queuedTransactions w).
Proof.
  induction ts as [|t rest IH]; intros k w Hts; simpl; [reflexivity|].
  destruct (Status_eqb (status t) queued) eqn:Hs.
  - rewrite IH by (intros t' Hin; apply Hts; right; exact Hin).
    apply processOne_other. intros E. apply Status_eqb_eq in Hs.
    exact (Hts t (or_introl eq_refl) Hs (eq_sym E)).
  - apply IH. intros t' Hin. apply Hts. right. exact Hin.
Qed.

(** X16: retrying a failed record marks it [queued], but the drain that the
    retry starts does not submit it: that drain goes through the queue of
    the render in which the record is still [failed].  The requests it
    issues are for other records, [queued] before the retry, and the
    retried record is still [queued] when it ends. *)
Theorem retry_does_not_resubmit (user : option string) (i : string)
    (net : nat -> FetchOutcome) (w : World) :
  List.NoDup (map id (queuedTransactions w)) ->
  status_of i (queuedTransactions w) = Some failed ->
  let w' := retryFailedTransaction (render user w) i net w in
  status_of i (queuedTransactions w') = Some queued
  /\ exists sent,
       rev (requests w') = (rev (requests w) ++ map fetchCallOf sent)%list
       /\ forall t, In t sent ->
            In t (queuedTransactions w) /\ status t = queued /\ id t <> i.
Proof.
  intros Hnd Hfailed w'.
  assert (Hq : forall t, In t (queuedTransactions w) -> status t = queued -> id t <> i).
  { intros t Hin Hs E. rewrite <- E, (status_of_In _ _ Hnd Hin), Hs in Hfailed.
    discriminate. }
  assert (Hmarked : status_of i (markStatus i queued (queuedTransactions w)) = Some queued).
  { rewrite status_of_markStatus_eq, Hfailed. reflexivity. }
  assert (Hidle : status_of i (markStatus i queued (queuedTransactions w)) = Some queued
                  /\ exists sent,
                       rev (requests w) = (rev (requests w) ++ map fetchCallOf sent)%list
                       /\ forall t, In t sent ->
                            In t (queuedTransactions w) /\ status t = queued /\ id t <> i).
  { split; [exact Hmarked|]. exists []. simpl. rewrite List.app_nil_r.
    split; [reflexivity | contradiction]. }
  subst w'. unfold retryFailedTransaction, processQueuedTransactions, render. simpl.
  destruct (isOnline w); simpl; [|exact Hidle].
  destruct user as [u|]; [|exact Hidle].
  destruct (isProcessing w || (length (queuedTransactions w) =? 0)%nat);
    [exact Hidle|]. simpl.
  split.
  - rewrite (drainLoop_other u net i _ 0 _ Hq). exact Hmarked.
  - exists (List.filter (fun t => Status_eqb (status t) queued) (queuedTransactions w)).
    split.
    + rewrite drainLoop_requests. simpl. rewrite List.rev_app_distr, rev_involutive.
      reflexivity.
    + intros t Ht. apply List.filter_In in Ht as [Hin Hs]. apply Status_eqb_eq in Hs.
      repeat split; [exact Hin | exact Hs | apply Hq; assumption].
Qed.

Lemma retry_does_not_resubmit_witness :
  let a := {| id := "offline_1_a"; type := bank_transfer; amount := "5000";
              description := "Rent"; recipientDetails := JNull; metadata := None;
              timestamp := 1; status := failed |} in
  let b := {| id := "offline_2_b"; type := airtime; amount := "100";
              description := "Airtime"; recipientDetails := JNull; metadata := None;
              timestamp := 2; status := queued |} in
  let w := {| isOnline := true; isProcessing := false; queuedTransactions := [a; b];
              storage := opened [ {| userId := "user-1"; transaction := a |};
                                  {| userId := "user-1"; transaction := b |} ];
              requests := []; queueLog := [] |} in
  let w' := retryFailedTransaction (render (Some "user-1") w) "offline_1_a"
              (fun _ => HttpOk) w in
  status_of "offline_1_a" (queuedTransactions w') = Some queued
  /\ exists sent,
       rev (requests w') = (rev (requests w) ++ map fetchCallOf sent)%list
       /\ forall t, In t sent ->
            In t (queuedTransactions w) /\ status t = queued /\ id t <> "offline_1_a".
Proof.
  intros a b w.
  apply (retry_does_not_resubmit (Some "user-1") "offline_1_a" (fun _ => HttpOk) w).
  - simpl. repeat constructor; simpl; intuition discriminate.
  - reflexivity.
Defined.

(** X17: the listener of the [online] event, registered at mount, drains
    with the queue of the first render, which is empty: whatever the
    in-memory queue and the store hold when the connection comes back, it
    sets [isOnline] and does nothing else; no request is issued. *)
Theorem going_online_submits_nothing (user : option string) (onLine : bool)
    (net : nat -> FetchOutcome) (w : World) :
  let w' := handleOnline (firstRender user onLine) net w in
  w' = setIsOnline true w
  /\ requests w' = requests w
  /\ queuedTransactions w' = queuedTransactions w
  /\ storage w' = storage w.
Proof.
  assert (H : handleOnline (firstRender user onLine) net w = setIsOnline true w).
  { unfold handleOnline, processQueuedTransactions, firstRender. simpl.
    destruct user; [|reflexivity]. rewrite orb_true_r. reflexivity. }
  intros w'. subst w'. rewrite H. repeat split.
Qed.

Lemma drain_runs (u : string) (net : nat -> FetchOutcome) (w : World) :
  isOnline w = true -> isProcessing w = false -> queuedTransactions w <> [] ->
  processQueuedTransactions (render (Some u) w) net w
  = setIsProcessing false
      (drainLoop u net (queuedTransactions w) 0 (setIsProcessing true w)).
Proof.
  intros Hon Hproc Hne. unfold processQueuedTransactions, render. simpl.
  rewrite Hon, Hproc. simpl.
  destruct (queuedTransactions w); [congruence | reflexivity].
Qed.

Lemma purge_keeps (r : StoredTransaction) (ids : list string) (st : list StoredTransaction) :
  In r st -> ~ In (keyPath r) ids -> In r (purge ids st).
Proof.
  revert st. induction ids as [|j ids IH]; intros st Hin Hnot; simpl; [exact Hin|].
  apply IH.
  - unfold os_delete. apply List.filter_In. split; [exact Hin|].
    destruct (String.eqb_spec (keyPath r) j) as [E|_]; [|reflexivity].
    exfalso. apply Hnot. left. symmetry. exact E.
  - intros H. apply Hnot. right. exact H.
Qed.

Lemma outcomes_queued (net : nat -> FetchOutcome) (q : list OfflineTransaction)
    (t : OfflineTransaction) (o : FetchOutcome) :
  forall k, In (t, Some o) (outcomes net k q) -> status t = queued.
Proof.
  induction q as [|x q IH]; intros k; simpl; [contradiction|].
  destruct (Status_eqb (status x) queued) eqn:Hs; simpl.
  - intros [E|H]; [|apply (IH _ H)]. inversion E. subst. apply Status_eqb_eq, Hs.
  - intros [E|H]; [discriminate | apply (IH _ H)].
Qed.

(** X18: the mark [failed] lives in memory only.  After a drain in which
    the submission of a record fails, the in-memory queue shows the record
    as [failed]; the store still holds it as it was enqueued, so that
    loading the queue again shows it as [queued]. *)
Theorem failed_mark_is_lost_on_reload (u : string) (net : nat -> FetchOutcome)
    (w : World) (st : list StoredTransaction) :
  isOnline w = true ->
  isProcessing w = false ->
  queuedTransactions w <> [] ->
  List.NoDup (map id (queuedTransactions w)) ->
  indexedDB (storage w) = Some st ->
  (forall t, In t (queuedTransactions w) -> In {| userId := u; transaction := t |} st) ->
  let drained := processQueuedTransactions (render (Some u) w) net w in
  let reloaded := loadQueuedTransactions (Some u) drained in
  forall t o,
    In (t, Some o) (outcomes net 0 (queuedTransactions w)) -> o <> HttpOk ->
    status t = queued
    /\ In (withStatus failed t) (queuedTransactions drained)
    /\ In t (queuedTransactions reloaded).
Proof.
  intros Hon Hproc Hne Hnd Hdb Hstored drained reloaded t o Hin Ho.
  set (rs := outcomes net 0 (queuedTransactions w)) in *.
  destruct (drainLoop_settles u net (queuedTransactions w) 0 (setIsProcessing true w) [] st)
    as (H1 & _ & H3 & _); [reflexivity | exact Hnd | exact Hdb |].
  simpl in H1, H3. fold rs in H1, H3.
  assert (Hd : drained = setIsProcessing false
                           (drainLoop u net (queuedTransactions w) 0
                              (setIsProcessing true w)))
    by (apply drain_runs; assumption).
  assert (Htq : In t (queuedTransactions w)).
  { rewrite <- (map_fst_outcomes net 0 (queuedTransactions w)).
    apply (in_map fst _ (t, Some o)), Hin. }
  split; [exact (outcomes_queued net _ t o 0 Hin)|]. split.
  - rewrite Hd. simpl. rewrite H1. apply in_flat_map. exists (t, Some o).
    split; [exact Hin|]. destruct o; [contradiction | left; reflexivity | left; reflexivity].
  - assert (Hkept : In {| userId := u; transaction := t |} (purge (succeeded rs) st)).
    { apply purge_keeps; [apply Hstored, Htq|].
      unfold succeeded. intros Hs. apply in_flat_map in Hs as ([t' o'] & Hin' & Hid).
      simpl in Hid. destruct o' as [[| |]|]; simpl in Hid; try contradiction.
      destruct Hid as [Hid|[]].
      assert (E : (t', Some HttpOk) = (t, Some o)).
      { apply (NoDup_map_inj_In (fun r => id (fst r)) rs); auto.
        rewrite <- (List.map_map fst id). unfold rs. rewrite map_fst_outcomes. exact Hnd. }
      inversion E. subst o. apply Ho. reflexivity. }
    subst reloaded. unfold loadQueuedTransactions, getOfflineQueue.
    rewrite (get_open u (storage drained) (purge (succeeded rs) st))
      by (rewrite Hd; exact H3).
    simpl. apply sort_desc_In.
    apply (in_map transaction _ {| userId := u; transaction := t |}).
    apply List.filter_In. split; [exact Hkept | apply String.eqb_refl].
Qed.

Lemma failed_mark_is_lost_on_reload_witness :
  let a := {| id := "offline_1_a"; type := bank_transfer; amount := "5000";
              description := "Rent"; recipientDetails := JNull; metadata := None;
              timestamp := 1; status := queued |} in
  let st := [ {| userId := "user-1"; transaction := a |} ] in
  let w := {| isOnline := true; isProcessing := false; queuedTransactions := [a];
              storage := opened st; requests := []; queueLog := [] |} in
  let net := fun _ : nat => HttpError in
  let drained := processQueuedTransactions (render (Some "user-1") w) net w in
  let reloaded := loadQueuedTransactions (Some "user-1") drained in
  In (a, Some HttpError) (outcomes net 0 (queuedTransactions w))
  /\ status a = queued
  /\ In (withStatus failed a) (queuedTransactions drained)
  /\ In a (queuedTransactions reloaded).
Proof.
  intros a st w net.
  assert (Hin : In (a, Some HttpError) (outcomes net 0 (queuedTransactions w)))
    by (left; reflexivity).
  split; [exact Hin|].
  apply (failed_mark_is_lost_on_reload "user-1" net w st) with (o := HttpError).
  - reflexivity.
  - reflexivity.
  - discriminate.
  - simpl. repeat constructor. simpl. tauto.
  - reflexivity.
  - intros t [<-|[]]. left. reflexivity.
  - exact Hin.
  - discriminate.
Defined.

Lemma processOne_closed (u : string) (t : OfflineTransaction) (o : FetchOutcome)
    (w : World) (done rest : list OfflineTransaction) :
  queuedTransactions w = (done ++ t :: rest)%list ->
  List.NoDup (map id (done ++ t :: rest)) ->
  indexedDB (storage w) = None ->
  queuedTransactions (processOne u t o w) = (done ++ withStatus failed t :: rest)%list
  /\ storage (processOne u t o w) = storage w.
Proof.
  intros Hq Hnd Hdb. destruct (NoDup_middle t done rest Hnd) as [Hd Hr].
  assert (Hfail : markStatus (id t) failed (markStatus (id t) processing (done ++ t :: rest))
                  = (done ++ withStatus failed t :: rest)%list).
  { rewrite (markStatus_middle _ _ _ _ Hd Hr).
    apply (markStatus_middle failed (withStatus processing t)); assumption. }
  unfold processOne. destruct o; simpl.
  - unfold removeFromOfflineQueue.
    destruct (remove_closed (id t) (storage w) Hdb) as [e ->]. simpl.
    rewrite Hq, Hfail. split; reflexivity.
  - rewrite Hq, Hfail. split; reflexivity.
  - rewrite Hq, Hfail. split; reflexivity.
Qed.

Lemma drainLoop_closed (u : string) (net : nat -> FetchOutcome)
    (ts : list OfflineTransaction) :
  forall (k : nat) (w : World) (done : list OfflineTransaction),
    queuedTransactions w = (done ++ ts)%list ->
    List.NoDup (map id (done ++ ts)) ->
    indexedDB (storage w) = None ->
    queuedTransactions (drainLoop u net ts k w)
    = (done ++ map (fun t => if Status_eqb (status t) queued
                             then withStatus failed t else t) ts)%list
    /\ storage (drainLoop u net ts k w) = storage w.
Proof.
  induction ts as [|t rest IH]; intros k w done Hq Hnd Hdb; simpl.
  - rewrite Hq. split; reflexivity.
  - destruct (Status_eqb (status t) queued) eqn:Hs.
    + destruct (processOne_closed u t (net k) w done rest Hq Hnd Hdb) as [P1 P2].
      destruct (IH (S k) (processOne u t (net k) w) (done ++ [withStatus failed t])%list)
        as [H1 H2].
      * rewrite <- List.app_assoc. exact P1.
      * rewrite <- List.app_assoc. simpl. rewrite List.map_app in Hnd |- *. exact Hnd.
      * rewrite P2. exact Hdb.
      * rewrite H1, H2, P2, <- List.app_assoc. split; reflexivity.
    + destruct (IH k w (done ++ [t])%list) as [H1 H2].
      * rewrite <- List.app_assoc. exact Hq.
      * rewrite <- List.app_assoc. exact Hnd.
      * exact Hdb.
      * rewrite H1, H2, <- List.app_assoc. split; reflexivity.
Qed.

(** X19: when the store cannot be opened, a drain pass still submits every
    [queued] record, and marks each of them [failed] whatever the outcome of
    its submission: a record whose submission succeeded is kept, as
    [failed], because its removal from the store was rejected. *)
Theorem drain_without_store_marks_all_failed (u : string) (net : nat -> FetchOutcome)
    (w : World) :
  isOnline w = true ->
  isProcessing w = false ->
  queuedTransactions w <> [] ->
  List.NoDup (map id (queuedTransactions w)) ->
  indexedDB (storage w) = None ->
  let w' := processQueuedTransactions (render (Some u) w) net w in
  queuedTransactions w'
  = map (fun t => if Status_eqb (status t) queued then withStatus failed t else t)
        (queuedTransactions w)
  /\ rev (requests w')
     = (rev (requests w)
        ++ map fetchCallOf
             (List.filter (fun t => Status_eqb (status t) queued) (queuedTransactions w)))%list
  /\ storage w' = storage w.
Proof.
  intros Hon Hproc Hne Hnd Hdb w'. subst w'.
  rewrite (drain_runs u net w Hon Hproc Hne).
  destruct (drainLoop_closed u net (queuedTransactions w) 0 (setIsProcessing true w) [])
    as [H1 H2]; [reflexivity | exact Hnd | exact Hdb |].
  simpl. rewrite H1, H2, drainLoop_requests. simpl.
  rewrite List.rev_app_distr, rev_involutive. repeat split.
Qed.

Lemma drain_without_store_marks_all_failed_witness :
  let a := {| id := "offline_1_a"; type := bank_transfer; amount := "5000";
              description := "Rent"; recipientDetails := JNull; metadata := None;
              timestamp := 1; status := queued |} in
  let w := {| isOnline := true; isProcessing := false; queuedTransactions := [a];
              storage := {| isInitialized := false; indexedDB := None |};
              requests := []; queueLog := [] |} in
  let w' := processQueuedTransactions (render (Some "user-1") w) (fun _ => HttpOk) w in
  queuedTransactions w'
  = map (fun t => if Status_eqb (status t) queued then withStatus failed t else t)
        (queuedTransactions w)
  /\ rev (requests w')
     = (rev (requests w)
        ++ map fetchCallOf
             (List.filter (fun t => Status_eqb (status t) queued) (queuedTransactions w)))%list
  /\ storage w' = storage w.
Proof.
  intros a w.
  apply (drain_without_store_marks_all_failed "user-1" (fun _ => HttpOk) w).
  - reflexivity.
  - reflexivity.
  - discriminate.
  - simpl. repeat constructor. simpl. tauto.
  - reflexivity.
Defined.

Lemma removeEach_open (u : string) (ts : list OfflineTransaction) :
  forall (s : Storage) (st : list StoredTransaction),
    indexedDB s = Some st ->
    exists s', removeEach u ts s = (Ok tt, s')
               /\ indexedDB s' = Some (purge (map id ts) st).
Proof.
  induction ts as [|t rest IH]; intros s st H; simpl.
  - exists s. split; [reflexivity | exact H].
  - unfold removeFromOfflineQueue. rewrite (remove_open (id t) s st H).
    apply (IH (opened _) _ eq_refl).
Qed.




End OfflineQueueMore.

(** ** The back end, continued *)

Lemma desc_sorted_firstn {A : Type} (key : A -> Z) (n : nat) (l : list A) :
  desc_sorted key l -> desc_sorted key (firstn n l).
Proof.
  revert l. induction n as [|n IH]; intros l H; simpl; [constructor|].
  destruct H as [|x l Hall Hl]; constructor.
  - rewrite List.Forall_forall in Hall |- *. intros y Hy.
    apply Hall. apply (firstn_In n l y Hy).
  - apply IH, Hl.
Qed.

Module ServerMore.
Import Server.

(** X21: [getTransactions] gives at most [limit] rows, all of them rows of
    that user, newest first; when the user has no more than [limit] rows it
    gives them all. *)
Theorem getTransactions_bounded (u : string) (limit : nat) (db : Database) :
  let rows := getTransactions u limit db in
  let own := List.filter (fun t => String.eqb (userId t) u) (transactions db) in
  (length rows <= limit)%nat
  /\ (forall t, In t rows -> In t (transactions db) /\ userId t = u)
  /\ desc_sorted createdAt rows
  /\ ((length own <= limit)%nat -> Permutation rows own).
Proof.
  intros rows own. subst rows. unfold getTransactions. fold own.
  split; [apply List.firstn_le_length|]. split; [|split].
  - intros t Ht. apply firstn_In, sort_desc_In in Ht. unfold own in Ht.
    apply List.filter_In in Ht as [Hin Hu]. split; [exact Hin | apply String.eqb_eq, Hu].
  - apply desc_sorted_firstn, sort_desc_sorted.
  - intros Hlen. rewrite List.firstn_all2; [apply sort_desc_perm|].
    rewrite (Permutation_length (sort_desc_perm createdAt own)). exact Hlen.
Qed.

Lemma updateTransaction_keeps (i : string) (s : TransactionStatus) (now : Z) (db : Database) :
  map (fun t => (id t, userId t, amount t, squadReference t))
      (transactions (updateTransaction i s now db))
  = map (fun t => (id t, userId t, amount t, squadReference t)) (transactions db)
  /\ wallets (updateTransaction i s now db) = wallets db.
Proof.
  split; [|reflexivity]. unfold updateTransaction. simpl.
  rewrite List.map_map. apply List.map_ext. intros t.
  destruct (String.eqb (id t) i); reflexivity.
Qed.

Lemma isString_failed_not_success (v : option json) :
  isString "failed" v = true -> isString "success" v = false.
Proof.
  destruct v as [[| | |x| |]|]; simpl; try discriminate.
  intros H. apply String.eqb_eq in H. subst x. reflexivity.
Qed.

Section Webhook.
Variable decimal_12_2 : string -> option string.
Context {Num : Type}.
Variable parseFloat : string -> Num.
Variable add : Num -> Num -> Num.
Variable numToString : Num -> string.

Lemma updateWalletBalance_keeps (u b : string) (now : Z) (db db' : Database) :
  updateWalletBalance decimal_12_2 u b now db = Some db' ->
  transactions db' = transactions db
  /\ map (fun w => (w_id w, w_userId w)) (wallets db')
     = map (fun w => (w_id w, w_userId w)) (wallets db).
Proof.
  unfold updateWalletBalance. destruct (decimal_12_2 b) as [stored|]; [|discriminate].
  intros E. inversion E. subst db'. simpl. split; [reflexivity|].
  rewrite List.map_map. apply List.map_ext. intros x.
  destruct (String.eqb (w_userId x) u); reflexivity.
Qed.

Lemma refund_keeps (t : Transaction) (now : Z) (db db' : Database) :
  refund decimal_12_2 parseFloat add numToString t now db = Some db' ->
  transactions db' = transactions db
  /\ map (fun w => (w_id w, w_userId w)) (wallets db')
     = map (fun w => (w_id w, w_userId w)) (wallets db).
Proof.
  unfold refund. destruct (getWallet (userId t) db) as [w|].
  - destruct (balance w) as [b|].
    + destruct (String.eqb b EmptyString).
      * intros E. inversion E. auto.
      * apply updateWalletBalance_keeps.
    + intros E. inversion E. auto.
  - intros E. inversion E. auto.
Qed.

(** The refund throws exactly when the user of the transaction has a
    wallet with a balance and the column refuses the sum. *)
Lemma refund_throws (t : Transaction) (now : Z) (db : Database) :
  refund decimal_12_2 parseFloat add numToString t now db = None
  <-> exists w b,
        getWallet (userId t) db = Some w
        /\ balance w = Some b
        /\ b <> EmptyString
        /\ decimal_12_2
             (numToString (add (parseFloat b) (parseFloat (removeFirstDash (amount t)))))
           = None.
Proof.
  unfold refund, updateWalletBalance. split.
  - destruct (getWallet (userId t) db) as [w|]; [|discriminate].
    destruct (balance w) as [b|] eqn:Hb; [|discriminate].
    destruct (String.eqb_spec b EmptyString) as [E|E]; [discriminate|].
    destruct (decimal_12_2 _) eqn:Hd; [discriminate|].
    intros _. exists w, b. auto.
  - intros (w & b & -> & -> & Hne & Hd).
    destruct (String.eqb_spec b EmptyString) as [E|E]; [contradiction|].
    cbv zeta. rewrite Hd. reflexivity.
Qed.

(** X22: the webhook neither adds nor removes a row; the id, the owner,
    the amount and the processor reference of every transaction, and the id
    and the owner of every wallet, are what they were.  It answers 200,
    but for one case, in which it answers 500 and leaves every row, the
    status of the transaction included, as it was: the callback reports a
    failure, the lookup finds the transaction, its user has a wallet with a
    balance, and the balance column refuses the refunded sum.  The wallets
    are untouched unless the status of the callback is [failed]. *)
Theorem squadWebhook_keeps_rows
    (transaction_reference transaction_status : option json) (now1 now2 : Z)
    (db : Database) :
  let out :=
    squadWebhook decimal_12_2 parseFloat add numToString
      transaction_reference transaction_status now1 now2 db in
  (fst out = processed \/ fst out = processingFailed)
  /\ (fst out = processingFailed
      <-> exists t w b,
            find (fun t => strictEq (squadReference t) transaction_reference)
              (getTransactions EmptyString 1000 db) = Some t
            /\ isString "failed" transaction_status = true
            /\ getWallet (userId t) db = Some w
            /\ balance w = Some b
            /\ b <> EmptyString
            /\ decimal_12_2
                 (numToString
                    (add (parseFloat b) (parseFloat (removeFirstDash (amount t)))))
               = None)
  /\ (fst out = processingFailed -> snd out = db)
  /\ map (fun t => (id t, userId t, amount t, squadReference t)) (transactions (snd out))
     = map (fun t => (id t, userId t, amount t, squadReference t)) (transactions db)
  /\ map (fun w => (w_id w, w_userId w)) (wallets (snd out))
     = map (fun w => (w_id w, w_userId w)) (wallets db)
  /\ (isString "failed" transaction_status = false ->
        fst out = processed /\ wallets (snd out) = wallets db).
Proof.
  assert (Hno : processed <> processingFailed) by discriminate.
  unfold squadWebhook. cbv zeta.
  destruct (find _ _) as [t|]; cbn [fst snd].
  - destruct (isString "success" transaction_status) eqn:Hs; cbn [fst snd].
    + destruct (updateTransaction_keeps (id t) success now2 db) as [-> ->].
      split; [auto|]. split; [|split; [intros H; contradiction | auto]].
      split; [intros H; contradiction|].
      intros (t' & w & b & E & Hf & _). apply isString_failed_not_success in Hf.
      congruence.
    + destruct (isString "failed" transaction_status) eqn:Hf; cbn [fst snd].
      * destruct (refund decimal_12_2 parseFloat add numToString t now1 db) as [db'|]
          eqn:Hr; cbn [fst snd].
        -- destruct (updateTransaction_keeps (id t) failed now2 db') as [-> ->].
           destruct (refund_keeps t now1 db db' Hr) as [-> ->].
           split; [auto|]. split; [|split; [intros H; contradiction|]].
           ++ split; [intros H; contradiction|].
              intros (t' & w & b & E & _ & Hw & Hb & Hne & Hd). inversion E. subst t'.
              assert (Hnone : refund decimal_12_2 parseFloat add numToString t now1 db
                              = None)
                by (apply refund_throws; exists w, b; auto).
              congruence.
           ++ split; [reflexivity|]. split; [reflexivity | discriminate].
        -- split; [auto|]. split; [|split; [reflexivity|]].
           ++ split; [|reflexivity]. intros _.
              apply refund_throws in Hr as (w & b & Hw & Hb & Hne & Hd).
              exists t, w, b. auto 10.
           ++ split; [reflexivity|]. split; [reflexivity | discriminate].
      * destruct (updateTransaction_keeps (id t) pending now2 db) as [-> ->].
        split; [auto|]. split; [|split; [intros H; contradiction | auto]].
        split; [intros H; contradiction|].
        intros (t' & w & b & _ & Hf' & _). discriminate.
  - split; [auto|]. split; [|split; [intros H; contradiction | auto]].
    split; [intros H; contradiction|].
    intros (t' & w & b & E & _). discriminate.
Qed.
End Webhook.

End ServerMore.

Lemma hd_filter_map {A : Type} (p : A -> bool) (f : A -> A) (l : list A) :
  (forall x, p (f x) = p x) ->
  hd_error (List.filter p (map f l)) = option_map f (hd_error (List.filter p l)).
Proof.
  intros Hp. induction l as [|x l IH]; simpl; [reflexivity|].
  rewrite Hp. destruct (p x); [reflexivity | exact IH].
Qed.

Lemma hd_filter_holds {A : Type} (p : A -> bool) (l : list A) (x : A) :
  hd_error (List.filter p l) = Some x -> In x l /\ p x = true.
Proof.
  intros H. assert (Hin : In x (List.filter p l)).
  { destruct (List.filter p l); [discriminate|]. inversion H. left. reflexivity. }
  apply List.filter_In, Hin.
Qed.

Module AccountsFacts.
Import Accounts.

Lemma getUser_updateUser (v u : string) (updates : UserUpdates) (now : Z) (db : Tables) :
  getUser v (updateUser u updates now db)
  = if String.eqb v u
    then option_map
           (fun x =>
              {| id := id x; email := email x; phone := phone x;
                 password := password x; firstName := firstName x;
                 lastName := lastName x;
                 status := match set_status updates with
                           | Some s => Some s
                           | None => status x
                           end;
                 transactionPin := match set_transactionPin updates with
                                   | Some p => Some p
                                   | None => transactionPin x
                                   end;
                 isPhoneVerified := match set_isPhoneVerified updates with
                                    | Some b => Some b
                                    | None => isPhoneVerified x
                                    end;
                 updatedAt := now |})
           (getUser v db)
    else getUser v db.
Proof.
  unfold getUser, updateUser. simpl.
  rewrite hd_filter_map by (intros x; destruct (String.eqb (id x) u); reflexivity).
  destruct (hd_error (List.filter (fun x => String.eqb (id x) v) (users db))) as [x|] eqn:E;
    [|destruct (String.eqb v u); reflexivity].
  apply hd_filter_holds in E as [_ Hid]. apply String.eqb_eq in Hid. simpl.
  rewrite Hid. destruct (String.eqb v u); reflexivity.
Qed.

Lemma acceptedPin_spec (pin : option json) (s : string) :
  acceptedPin pin = Some s
  <-> pin = Some (JStr s)
      /\ String.length s = 4%nat
      /\ forall c, In c (list_ascii_of_string s) -> isDigit c = true.
Proof.
  unfold acceptedPin. split.
  - destruct pin as [[| | |s'| |]|]; try discriminate.
    destruct (negb (String.eqb s' EmptyString) && (String.length s' =? 4)%nat
              && forallb isDigit (list_ascii_of_string s')) eqn:E; [|discriminate].
    intros H. inversion H. subst s'.
    apply andb_true_iff in E as [E Hd]. apply andb_true_iff in E as [_ Hl].
    split; [reflexivity|]. split; [apply Nat.eqb_eq, Hl|].
    rewrite forallb_forall in Hd. exact Hd.
  - intros (-> & Hl & Hd).
    assert (Hne : String.eqb s EmptyString = false).
    { destruct s; [discriminate | reflexivity]. }
    rewrite Hne. simpl. rewrite Hl. simpl.
    assert (Hall : forallb isDigit (list_ascii_of_string s) = true)
      by (apply forallb_forall; exact Hd).
    rewrite Hall. reflexivity.
Qed.

Section Routes.
Variable hash : string -> string -> string.
Variable compare : string -> string -> bool.

(** X23: [POST /api/auth/set-pin] answers 200 exactly when the session
    carries a user id and the PIN is a string of four decimal digits; any
    other request leaves the tables as they were; on success the row of the
    user of the session, if there is one, gets the hash of the PIN and keeps
    its password and status, and the row of every other user is as
    before. *)
Theorem setPin_accepts_four_digits_only
    (session : option string) (pin : option json) (salt : string) (now : Z)
    (db : Tables) :
  let out := setPin hash session pin salt now db in
  (code_ (fst out) = 200
   <-> exists u s,
         requireAuth session = Some u
         /\ pin = Some (JStr s)
         /\ String.length s = 4%nat
         /\ (forall c, In c (list_ascii_of_string s) -> isDigit c = true))
  /\ (code_ (fst out) <> 200 -> snd out = db)
  /\ (forall u s,
        requireAuth session = Some u -> acceptedPin pin = Some s ->
        (forall x, getUser u db = Some x ->
           exists x', getUser u (snd out) = Some x'
                      /\ transactionPin x' = Some (hash s salt)
                      /\ password x' = password x
                      /\ status x' = status x)
        /\ (forall v, v <> u -> getUser v (snd out) = getUser v db)).
Proof.
  unfold setPin. destruct (requireAuth session) as [u|] eqn:Hauth.
  - destruct (acceptedPin pin) as [p|] eqn:Hpin; cbn [fst snd code_].
    + split; [|split].
      * split; [|reflexivity]. intros _. exists u, p.
        apply acceptedPin_spec in Hpin. tauto.
      * intros H. exfalso. apply H. reflexivity.
      * intros u' s E1 E2. inversion E1. inversion E2. subst u' s. split.
        -- intros x Hx. rewrite getUser_updateUser, String.eqb_refl, Hx. simpl.
           eexists. split; [reflexivity|]. repeat split.
        -- intros v Hv. rewrite getUser_updateUser.
           destruct (String.eqb_spec v u); [contradiction | reflexivity].
    + split; [|split].
      * split; [discriminate|]. intros (u' & s & _ & Hp & Hl & Hd).
        assert (Hacc : acceptedPin pin = Some s) by (apply acceptedPin_spec; tauto).
        rewrite Hacc in Hpin. discriminate.
      * reflexivity.
      * intros u' s _ E. discriminate.
  - cbn [fst snd code_]. split; [|split].
    + split; [discriminate|]. intros (u & s & E & _). discriminate.
    + reflexivity.
    + intros u s E. discriminate.
Qed.

(** X24: [POST /api/auth/login] answers 200 and opens a session only for
    the first user with that e-mail address, when the password matches and
    the account is neither suspended nor blocked; any other answer leaves
    the session as it was. *)
Theorem login_needs_password_and_standing
    (email_ password_ : string) (session : option string) (db : Tables) :
  let out := login compare email_ password_ session db in
  (code_ (fst out) = 200 ->
     exists user,
       getUserByEmail email_ db = Some user
       /\ compare password_ (password user) = true
       /\ status user <> Some suspended
       /\ status user <> Some blocked
       /\ snd out = Some (id user))
  /\ (code_ (fst out) <> 200 -> snd out = session).
Proof.
  unfold login. destruct (getUserByEmail email_ db) as [user|].
  - destruct (compare password_ (password user)) eqn:Hc; cbn [negb fst snd code_].
    + destruct (status user) as [[| | |]|] eqn:Hs; cbn [fst snd code_];
        (split; [intros H; try discriminate H; exists user; repeat split; congruence
                |intros H; try reflexivity; exfalso; apply H; reflexivity]).
    + split; [discriminate | reflexivity].
  - cbn [fst snd code_]. split; [discriminate | reflexivity].
Qed.
End Routes.

Lemma markOtpAsUsed_retires (i : string) (db : Tables) (c t : string)
    (r' : OtpVerification) :
  getOtpVerification c t (markOtpAsUsed i db) = Some r' -> o_id r' <> i.
Proof.
  unfold getOtpVerification, markOtpAsUsed. simpl. intros H.
  apply hd_filter_holds in H as [Hin Hun].
  apply List.in_map_iff in Hin as (o & E & _).
  destruct (String.eqb_spec (o_id o) i) as [Hi|Hi].
  - subst r'. unfold unusedOtp in Hun. simpl in Hun.
    rewrite andb_false_r in Hun. discriminate.
  - subst r'. exact Hi.
Qed.

(** X25: [POST /api/auth/verify-otp] answers 200 only on a row that is not
    used, has that code and type, belongs to that user and has not expired;
    it then opens the session of that user and retires the row: no later
    look-up, whatever the code, gives a row with that id.  Any other answer
    leaves the session and the tables as they were. *)
Theorem verifyOtp_retires_the_row
    (c t u : string) (now1 now2 : Z) (session : option string) (db : Tables) :
  let out := verifyOtp c t u now1 now2 session db in
  (code_ (fst (fst out)) = 200 ->
     exists r,
       getOtpVerification c t db = Some r
       /\ code r = c /\ o_type r = t /\ isUsed r = Some false
       /\ o_userId r = Some u
       /\ now1 <= expiresAt r
       /\ snd (fst out) = Some u
       /\ forall c' t' r',
            getOtpVerification c' t' (snd out) = Some r' -> o_id r' <> o_id r)
  /\ (code_ (fst (fst out)) <> 200 -> snd (fst out) = session /\ snd out = db).
Proof.
  unfold verifyOtp. destruct (getOtpVerification c t db) as [r|] eqn:Hget.
  - destruct (Z.ltb_spec (expiresAt r) now1) as [Hexp|Hexp]; cbn [fst snd code_].
    + split; [discriminate | auto].
    + destruct (o_userId r) as [ru|] eqn:Hu; cbn [negb].
      * destruct (String.eqb_spec ru u) as [->|Hne]; cbn [negb fst snd code_].
        -- split; [|intros H; exfalso; apply H; reflexivity].
           intros _. exists r.
           pose proof Hget as Hr. unfold getOtpVerification in Hr.
           apply hd_filter_holds in Hr as [_ Hun]. unfold unusedOtp in Hun.
           apply andb_true_iff in Hun as [Hct Hused].
           apply andb_true_iff in Hct as [Hc Ht].
           apply String.eqb_eq in Hc. apply String.eqb_eq in Ht.
           repeat split; try assumption; try reflexivity.
           ++ destruct (isUsed r) as [[|]|]; try discriminate. reflexivity.
           ++ intros c' t' r' H'.
              destruct (String.eqb t "registration") in H';
                apply (markOtpAsUsed_retires (o_id r) db c' t' r'); exact H'.
        -- split; [discriminate | auto].
      * cbn [fst snd code_]. split; [discriminate | auto].
  - cbn [fst snd code_]. split; [discriminate | auto].
Qed.

(** X26: [deleteBeneficiary] hides the row and keeps it: no list of
    beneficiaries shows a row with that id afterwards, the rows with another
    id are listed as before, and [getBeneficiary] still finds the row, now
    inactive. *)
Theorem deleteBeneficiary_hides_and_keeps (i : string) (now : Z) (db : Tables) :
  let out := deleteBeneficiary i now db in
  (forall u b, In b (getBeneficiaries u (snd out)) ->
     b_id b <> i /\ In b (getBeneficiaries u db))
  /\ (forall u b, In b (getBeneficiaries u db) -> b_id b <> i ->
        In b (getBeneficiaries u (snd out)))
  /\ (forall b, getBeneficiary i db = Some b ->
        exists b', getBeneficiary i (snd out) = Some b'
                   /\ isActive b' = Some false
                   /\ b_userId b' = b_userId b
                   /\ accountNumber b' = accountNumber b)
  /\ (fst out = true <-> getBeneficiary i db <> None).
Proof.
  unfold deleteBeneficiary. cbn [fst snd].
  set (f := fun b : Beneficiary =>
              if String.eqb (b_id b) i
              then {| b_id := b_id b; b_userId := b_userId b;
                      accountNumber := accountNumber b; accountName := accountName b;
                      bankCode := bankCode b; isActive := Some false;
                      b_createdAt := b_createdAt b; b_updatedAt := now |}
              else b).
  split; [|split; [|split]].
  - intros u b Hb. unfold getBeneficiaries in Hb |- *. simpl in Hb.
    apply sort_desc_In, List.filter_In in Hb as [Hin Hp].
    apply List.in_map_iff in Hin as (b0 & E & Hin0). unfold f in E.
    destruct (String.eqb_spec (b_id b0) i) as [Hi|Hi].
    + subst b. simpl in Hp. rewrite andb_false_r in Hp. discriminate.
    + subst b0. split; [exact Hi|].
      apply sort_desc_In, List.filter_In. split; assumption.
  - intros u b Hb Hi. unfold getBeneficiaries in Hb |- *. simpl.
    apply sort_desc_In, List.filter_In in Hb as [Hin Hp].
    apply sort_desc_In, List.filter_In. split; [|exact Hp].
    apply List.in_map_iff. exists b. split; [|exact Hin]. unfold f.
    destruct (String.eqb_spec (b_id b) i); [contradiction | reflexivity].
  - intros b Hb. unfold getBeneficiary in Hb |- *. simpl.
    fold f. rewrite hd_filter_map
      by (intros x; unfold f; destruct (String.eqb (b_id x) i) eqn:E; simpl; exact E).
    rewrite Hb. simpl. apply hd_filter_holds in Hb as [_ Hid].
    unfold f. rewrite Hid. eexists. split; [reflexivity|]. repeat split.
  - unfold getBeneficiary. induction (beneficiaries db) as [|b l IH]; simpl.
    + split; [discriminate | intros H; exfalso; apply H; reflexivity].
    + destruct (String.eqb (b_id b) i); simpl; [|exact IH].
      split; [discriminate | reflexivity].
Qed.

End AccountsFacts.

Module HookSystemFacts.
Import Queue OfflineStorage OfflineQueue HookSystem OfflineStorageFacts.

Lemma held_markStatus (st : list StoredTransaction) (i : string) (s : Status)
    (q : list OfflineTransaction) :
  held st q -> held st (markStatus i s q).
Proof.
  intros H t Hin. unfold markStatus in Hin.
  apply List.in_map_iff in Hin as (t0 & E & Hin0). specialize (H t0 Hin0).
  subst t. destruct (String.eqb (id t0) i); exact H.
Qed.

Lemma held_dropId (st : list StoredTransaction) (i : string)
    (q : list OfflineTransaction) :
  held st q -> held (os_delete keyPath i st) (dropId i q).
Proof.
  intros H t Hin. unfold dropId in Hin. apply List.filter_In in Hin as [Hin Hne].
  rewrite os_get_delete_ne; [apply H, Hin|].
  destruct (String.eqb_spec (id t) i); [discriminate | assumption].
Qed.

Lemma held_insert (st : list StoredTransaction) (u : string) (t : OfflineTransaction)
    (q : list OfflineTransaction) :
  os_get keyPath (id t) st = None ->
  held st q ->
  held (os_insert keyPath {| userId := u; transaction := t |} st) (q ++ [t]).
Proof.
  intros Hfresh H.
  pose proof (os_get_insert_eq keyPath {| userId := u; transaction := t |} st Hfresh)
    as Hnew.
  change (keyPath {| userId := u; transaction := t |}) with (id t) in Hnew.
  intros t' Hin. apply List.in_app_iff in Hin as [Hin|[<-|[]]].
  - destruct (String.eqb_spec (id t') (id t)) as [E|E].
    + rewrite E, Hnew. discriminate.
    + rewrite os_get_insert_ne by exact E. apply H, Hin.
  - rewrite Hnew. discriminate.
Qed.

Lemma held_list (u : string) (st : list StoredTransaction) :
  held st (sort_desc timestamp (map transaction (index_getAll u st))).
Proof.
  intros t Hin. apply sort_desc_In, List.in_map_iff in Hin as (r & <- & Hr).
  unfold index_getAll in Hr. apply List.filter_In in Hr as [Hr _].
  change (id (transaction r)) with (keyPath r). unfold os_get.
  destruct (find (fun v => String.eqb (keyPath v) (keyPath r)) st) eqn:E; [discriminate|].
  apply (find_none _ _ E) in Hr. rewrite String.eqb_refl in Hr. discriminate.
Qed.

Lemma processOne_backed (u : string) (t : OfflineTransaction) (o : FetchOutcome)
    (w : World) :
  backed w -> backed (processOne u t o w).
Proof.
  intros (st & Hdb & H). unfold processOne.
  destruct o; cbn [storage setQueuedTransactions logRequest].
  - unfold removeFromOfflineQueue. rewrite (remove_open (id t) _ st Hdb).
    exists (os_delete keyPath (id t) st). split; [reflexivity|].
    cbn [queuedTransactions setQueuedTransactions setStorage logRequest].
    apply held_dropId, held_markStatus, H.
  - exists st. split; [exact Hdb|].
    cbn [queuedTransactions setQueuedTransactions setStorage logRequest].
    apply held_markStatus, held_markStatus, H.
  - exists st. split; [exact Hdb|].
    cbn [queuedTransactions setQueuedTransactions setStorage logRequest].
    apply held_markStatus, held_markStatus, H.
Qed.

Lemma drainLoop_backed (u : string) (net : nat -> FetchOutcome)
    (snapshot : list OfflineTransaction) (k : nat) (w : World) :
  backed w -> backed (drainLoop u net snapshot k w).
Proof.
  revert k w. induction snapshot as [|t rest IH]; intros k w H; simpl; [exact H|].
  destruct (Status_eqb (status t) queued); apply IH; [apply processOne_backed|]; exact H.
Qed.

Lemma processQueuedTransactions_backed (cl : Closure) (net : nat -> FetchOutcome)
    (w : World) :
  backed w -> backed (processQueuedTransactions cl net w).
Proof.
  intros H. unfold processQueuedTransactions.
  destruct (c_user cl) as [u|]; [|exact H].
  destruct (negb (c_isOnline cl) || c_isProcessing cl
            || (length (c_queuedTransactions cl) =? 0)%nat); [exact H|].
  destruct (drainLoop_backed u net (c_queuedTransactions cl) 0 (setIsProcessing true w))
    as (st & Hdb & Hh).
  { destruct H as (st & Hdb & Hh). exists st. split; assumption. }
  exists st. split; assumption.
Qed.

Lemma backed_stable (w w' : World) :
  storage w' = storage w -> queuedTransactions w' = queuedTransactions w ->
  backed w -> backed w'.
Proof.
  intros Hs Hq (st & Hdb & H). exists st. rewrite Hs, Hq. split; assumption.
Qed.

(** X27: once the store is open and holds every record the hook shows, it
    stays so, whatever is called on the hook, in whatever order and with
    the closure of whatever render: loading, enqueueing, draining, retrying,
    removing, clearing, and going online or offline.  A record that is shown
    is therefore found again when the queue is loaded anew. *)
Theorem shown_records_stay_stored (cs : list Call) (w : World) :
  backed w -> backed (runAll cs w).
Proof.
  revert w. induction cs as [|c cs IH]; intros w H; [exact H|].
  apply IH. clear IH cs. destruct c as [user|user t now1 rnd now2|cl net|cl i net
                                        |user i|cl|mount net|]; simpl.
  - unfold loadQueuedTransactions. destruct user as [u|]; [|exact H].
    destruct H as (st & Hdb & H). unfold getOfflineQueue.
    rewrite (get_open u _ st Hdb). exists st. split; [reflexivity|]. apply held_list.
  - unfold addTransactionToQueue. destruct user as [u|]; [|exact H].
    destruct H as (st & Hdb & H). unfold addToOfflineQueue.
    set (t' := newQueuedTransaction t now1 rnd now2).
    destruct (os_get keyPath (id t') st) as [r|] eqn:Hget.
    + rewrite (add_taken u t' _ st r Hdb Hget). exists st. split; [reflexivity | exact H].
    + rewrite (add_fresh u t' _ st Hdb Hget). eexists. split; [reflexivity|].
      apply held_insert; assumption.
  - apply processQueuedTransactions_backed, H.
  - unfold retryFailedTransaction.
    assert (H' : backed (setQueuedTransactions (markStatus i queued) w)).
    { destruct H as (st & Hdb & H). exists st. split; [exact Hdb|].
      apply held_markStatus, H. }
    destruct (c_isOnline cl); [apply processQueuedTransactions_backed|]; exact H'.
  - unfold removeTransaction. destruct user as [u|]; [|exact H].
    destruct H as (st & Hdb & H). unfold removeFromOfflineQueue.
    rewrite (remove_open i _ st Hdb). eexists. split; [reflexivity|].
    apply held_dropId, H.
  - unfold clearQueue. destruct (c_user cl) as [u|]; [|exact H].
    destruct H as (st & Hdb & H).
    destruct (OfflineQueueMore.removeEach_open u (c_queuedTransactions cl) _ st Hdb)
      as (s' & -> & Hdb').
    eexists. split; [exact Hdb'|]. intros t [].
  - unfold handleOnline. apply processQueuedTransactions_backed.
    apply (backed_stable w); [reflexivity | reflexivity | exact H].
  - apply (backed_stable w); [reflexivity | reflexivity | exact H].
Qed.

(** A run of X27: a record is enqueued, its submission fails, it is retried
    from the render that shows it failed, and then removed. *)
Lemma shown_records_stay_stored_witness :
  let w :=
    {| isOnline := true; isProcessing := false; queuedTransactions := [];
       storage := {| isInitialized := false; indexedDB := Some [] |};
       requests := []; queueLog := [] |} in
  let t :=
    {| n_type := airtime; n_amount := "100"; n_description := "Airtime";
       n_recipientDetails := JNull; n_metadata := None |} in
  let w1 := run (CallAdd (Some "user-1") t 1 "a" 2) w in
  let w2 := run (CallProcess (render (Some "user-1") w1) (fun _ => HttpError)) w1 in
  backed w
  /\ backed
       (runAll [CallAdd (Some "user-1") t 1 "a" 2;
                CallProcess (render (Some "user-1") w1) (fun _ => HttpError);
                CallRetry (render (Some "user-1") w2) (offlineId 1 "a")
                  (fun _ => NetworkException);
                CallLoad (Some "user-1")] w)
  /\ map status (queuedTransactions w2) = [failed].
Proof.
  intros w t w1 w2.
  assert (H : backed w) by (exists []; split; [reflexivity | intros x []]).
  split; [exact H|]. split; [|reflexivity].
  apply (shown_records_stay_stored _ w H).
Defined.

End HookSystemFacts.

Module ServerStorageFacts.
Import Server.

Section Columns.
Variable decimal_12_2 : string -> option string.

(** X28: [updateWalletBalance] is rejected, and writes nothing, exactly
    when the balance column refuses the text.  Otherwise [getWallet] then
    gives the same wallet of that user with the balance as the column
    holds it, which need not be the text given; its ledger balance is not
    changed.  A user without a wallet still has none, the wallets of the
    other users and all the transactions are as before. *)
Theorem updateWalletBalance_read_back (u b : string) (now : Z) (db : Database) :
  match decimal_12_2 b with
  | None => updateWalletBalance decimal_12_2 u b now db = None
  | Some stored =>
      exists db',
        updateWalletBalance decimal_12_2 u b now db = Some db'
        /\ getWallet u db'
           = option_map
               (fun w => {| w_id := w_id w; w_userId := w_userId w;
                            balance := Some stored;
                            ledgerBalance := ledgerBalance w; w_updatedAt := now |})
               (getWallet u db)
        /\ (forall v, v <> u -> getWallet v db' = getWallet v db)
        /\ transactions db' = transactions db
  end.
Proof.
  unfold updateWalletBalance. destruct (decimal_12_2 b) as [stored|]; [|reflexivity].
  eexists. split; [reflexivity|].
  assert (Hget : forall v,
            hd_error
              (List.filter (fun w => String.eqb (w_userId w) v)
                 (map (fun w => if String.eqb (w_userId w) u
                                then {| w_id := w_id w; w_userId := w_userId w;
                                        balance := Some stored;
                                        ledgerBalance := ledgerBalance w;
                                        w_updatedAt := now |}
                                else w) (wallets db)))
            = option_map
                (fun w => if String.eqb (w_userId w) u
                          then {| w_id := w_id w; w_userId := w_userId w;
                                  balance := Some stored;
                                  ledgerBalance := ledgerBalance w;
                                  w_updatedAt := now |}
                          else w)
                (getWallet v db)).
  { intros v. unfold getWallet.
    apply hd_filter_map. intros x. destruct (String.eqb (w_userId x) u); reflexivity. }
  unfold getWallet at 1. cbn [wallets transactions].
  split; [|split; [|reflexivity]].
  - rewrite Hget. destruct (getWallet u db) as [w|] eqn:E; [|reflexivity].
    unfold getWallet in E. apply hd_filter_holds in E as [_ Hw]. simpl.
    rewrite Hw. reflexivity.
  - intros v Hv. unfold getWallet at 1. cbn [wallets]. rewrite Hget.
    destruct (getWallet v db) as [w|] eqn:E; [|reflexivity].
    unfold getWallet in E. apply hd_filter_holds in E as [_ Hw].
    apply String.eqb_eq in Hw. simpl.
    destruct (String.eqb_spec (w_userId w) u); [congruence | reflexivity].
Qed.
End Columns.

End ServerStorageFacts.
